(** * Market data service: provider routing and technical indicators

  A shallow embedding of [src/services/marketDataService.js]
  (class [MarketDataService]) and the properties of its fallback
  router, its historical-data adapters and its indicator engine.

  Conventions of the embedding.

  - In the indicator engine ([Indicators]) a JavaScript number is an
    exact rational ([Q]): the rounding of IEEE doubles and the overflow
    to [Infinity]/[NaN] are outside that model, and what is proved of it
    is proved of exact arithmetic.  [calculateRSI] is embedded a second
    time in double precision ([Ieee], on the primitive binary64 floats),
    where overflow is what the code does.  [null] is [None] of an
    [option]; the coercion [ToNumber(null) = 0] that the [-] operator
    applies is written out ([toNumber]).
  - An instant ([Date]) is its number of milliseconds since the epoch, a
    [Z]; [toISOString] is injective and order preserving on valid dates,
    so the ISO string of a bar is represented by that number.
  - An upstream HTTP call is a question to an oracle ([Upstream]); every
    call is appended to a log, so that the number and the targets of the
    calls of one request can be stated.
  - [async] methods that call themselves ([getQuote] and its siblings)
    take a fuel argument; they are shown to return with fuel 2. *)

From Stdlib Require Import String List ZArith QArith Qabs Bool Arith Lia Lqa.
From Stdlib Require Import Sorting.Sorted Sorting.Permutation.
From Stdlib Require Floats.PrimFloat.
Import ListNotations.

Set Implicit Arguments.

(** ** JavaScript values used by the indicator engine *)

Module Js.

(** [Number(n)] for a natural number [n] (a period, a length). *)
Definition ofNat (n : nat) : Q := inject_Z (Z.of_nat n).

(** [a < b] on numbers. *)
Definition ltb (a b : Q) : bool := negb (Qle_bool b a).

(** [a === 0] and the like on numbers. *)
Definition eqb (a b : Q) : bool := Qeq_bool a b.

(** [ToNumber] on a value that is a number or [null]. *)
Definition toNumber (v : option Q) : Q :=
  match v with
  | Some q => q
  | None => 0
  end.

(** The binary [-] operator on values that are numbers or [null]: both
    operands go through [ToNumber], the result is always a number. *)
Definition minus (a b : option Q) : option Q :=
  Some (toNumber a - toNumber b).

(** [xs.reduce((sum, x) => sum + x, 0)]. *)
Definition sum (xs : list Q) : Q := fold_left Qplus xs 0.

End Js.

(** ** Canonical bars *)

(** A bar of a price series.  [V] is the type of the values of its numeric
  fields: [Q] where the engine computes with them, [option Q] where an
  adapter copies what the upstream sent ([None] for a missing one). *)
Record Bar (V : Type) : Type := mkBar {
timestamp : Z;
open : V;
high : V;
low : V;
close : V;
volume : V
}.

(** ** Indicator engine, in exact arithmetic *)

Module Indicators.

Import Js.
Local Open Scope Q_scope.

(** The [changes] array of [calculateRSI]:
    [for (i = 1; i < prices.length; i++) changes.push(prices[i] - prices[i-1])]. *)
Definition priceChanges (prices : list Q) : list Q :=
  map (fun i => nth i prices 0 - nth (i - 1) prices 0)
      (seq 1 (length prices - 1)).

(** [change > 0 ? change : 0]. *)
Definition gainOf (change : Q) : Q := if ltb 0 change then change else 0.

(** [change < 0 ? Math.abs(change) : 0]. *)
Definition lossOf (change : Q) : Q := if ltb change 0 then Qabs change else 0.

(** [100 - (100 / (1 + rs))] with
    [rs = avgGain / (avgLoss === 0 ? 0.001 : avgLoss)]. *)
Definition rsiOf (avgGain avgLoss : Q) : Q :=
  let rs := avgGain / (if eqb avgLoss 0 then 1 # 1000 else avgLoss) in
  100 - 100 / (1 + rs).

(** One iteration of the smoothing loop of [calculateRSI] on the state
    [(avgGain, avgLoss, rsiValues)]. *)
Definition rsiStep (period : nat) (st : Q * Q * list Q) (change : Q)
  : Q * Q * list Q :=
  let '(avgGain, avgLoss, rsiValues) := st in
  let avgGain := (avgGain * (ofNat period - 1) + gainOf change) / ofNat period in
  let avgLoss := (avgLoss * (ofNat period - 1) + lossOf change) / ofNat period in
  (avgGain, avgLoss, rsiValues ++ [rsiOf avgGain avgLoss]).

(** [calculateRSI(prices, period = 14)]. *)
Definition calculateRSI (prices : list Q) (period : nat) : option Q :=
  if (length prices <? period + 1)%nat then None
  else
    let changes := priceChanges prices in
    let gains := map gainOf changes in
    let losses := map lossOf changes in
    let avgGain := sum (firstn period gains) / ofNat period in
    let avgLoss := sum (firstn period losses) / ofNat period in
    let rsiValues := [rsiOf avgGain avgLoss] in
    let '(_, _, rsiValues) :=
      fold_left (rsiStep period) (skipn period changes)
                (avgGain, avgLoss, rsiValues) in
    Some (last rsiValues 0).

(** [calculateEMA(prices, period = 12)]. *)
Definition calculateEMA (prices : list Q) (period : nat) : option Q :=
  if (length prices <? period)%nat then None
  else
    let sma := sum (firstn period prices) / ofNat period in
    let multiplier := 2 / (ofNat period + 1) in
    Some (fold_left (fun ema price => (price - ema) * multiplier + ema)
                    (skipn period prices) sma).

(** The object returned by [calculateMACD]. *)
Record MACD : Type := mkMACD {
  macdLine : option Q;
  signalLine : option Q;
  histogram : option Q
}.

(** [calculateMACD(prices)]. *)
Definition calculateMACD (prices : list Q) : MACD :=
  let ema12 := calculateEMA prices 12 in
  let ema26 := calculateEMA prices 26 in
  let macdLine := minus ema12 ema26 in
  {| macdLine := macdLine; signalLine := None; histogram := None |}.

(** What [calculateIndicators] returns: the empty object [{}] or an
    object with the four fields. *)
Inductive IndicatorSet : Type :=
| EmptyObject
| IndicatorObject (rsi emaShort emaLong : option Q) (macd : MACD).

(** [calculateIndicators(prices)]; an absent ([undefined], [null])
    argument is [None]. *)
Definition calculateIndicators (prices : option (list (Bar Q))) : IndicatorSet :=
  match prices with
  | None => EmptyObject
  | Some prices =>
      if (length prices =? 0)%nat then EmptyObject
      else
        let closePrices := map (@close Q) prices in
        let rsi := calculateRSI closePrices 14 in
        let emaShort := calculateEMA closePrices 12 in
        let emaLong := calculateEMA closePrices 26 in
        let macd := calculateMACD closePrices in
        IndicatorObject rsi emaShort emaLong macd
  end.

(** The arithmetic mean of a list, as the specification words it. *)
Definition mean (xs : list Q) : Q := sum xs / ofNat (length xs).

(** The list [1, 2, ..., n]. *)
Definition oneTo (n : nat) : list Q := map ofNat (seq 1 n).


End Indicators.

(** ** The RSI in double precision *)

Module Ieee.

Import PrimFloat.
Local Open Scope float_scope.
Local Set Warnings "-inexact-float".

(** [Number(n)] for a natural number [n] (a period); exact below 2^53. *)
Fixpoint ofNat (n : nat) : float :=
  match n with
  | O => 0
  | S n' => ofNat n' + 1
  end.

(** [xs.reduce((sum, x) => sum + x, 0)]. *)
Definition sum (xs : list float) : float := fold_left add xs 0.

(** The [changes] array of [calculateRSI]. *)
Definition priceChanges (prices : list float) : list float :=
  map (fun i => nth i prices 0 - nth (i - 1) prices 0)
      (seq 1 (length prices - 1)).

(** [change > 0 ? change : 0]. *)
Definition gainOf (change : float) : float :=
  if 0 <? change then change else 0.

(** [change < 0 ? Math.abs(change) : 0]. *)
Definition lossOf (change : float) : float :=
  if change <? 0 then abs change else 0.

(** [100 - (100 / (1 + rs))] with
    [rs = avgGain / (avgLoss === 0 ? 0.001 : avgLoss)]. *)
Definition rsiOf (avgGain avgLoss : float) : float :=
  let rs := avgGain / (if avgLoss =? 0 then 0.001 else avgLoss) in
  100 - 100 / (1 + rs).

(** One iteration of the smoothing loop of [calculateRSI]. *)
Definition rsiStep (period : nat) (st : float * float * list float)
  (change : float) : float * float * list float :=
  let '(avgGain, avgLoss, rsiValues) := st in
  let avgGain := (avgGain * (ofNat period - 1) + gainOf change) / ofNat period in
  let avgLoss := (avgLoss * (ofNat period - 1) + lossOf change) / ofNat period in
  (avgGain, avgLoss, (rsiValues ++ [rsiOf avgGain avgLoss])%list).

(** [calculateRSI(prices, period = 14)] on doubles. *)
Definition calculateRSI (prices : list float) (period : nat) : option float :=
  if (length prices <? period + 1)%nat then None
  else
    let changes := priceChanges prices in
    let gains := map gainOf changes in
    let losses := map lossOf changes in
    let avgGain := sum (firstn period gains) / ofNat period in
    let avgLoss := sum (firstn period losses) / ofNat period in
    let rsiValues := [rsiOf avgGain avgLoss] in
    let '(_, _, rsiValues) :=
      fold_left (rsiStep period) (skipn period changes)
                (avgGain, avgLoss, rsiValues) in
    Some (last rsiValues 0).


(** The fifteen closes of [Scenario.fifteenCloses], as doubles. *)
Definition fifteenCloses : list float :=
  [44; 45; 43; 44; 46; 47; 45; 46; 48; 47; 49; 50; 48; 49; 51].

End Ieee.

(** ** Results, upstream calls and the call log *)

Module Io.

(** The [message] of a thrown [Error]. *)
Definition Error : Type := string.

(** The outcome of a computation that may throw. *)
Inductive Result (A : Type) : Type :=
| Ok (a : A)
| Err (e : Error).

Arguments Ok {A} a.
Arguments Err {A} e.

(** The three upstream services, one axios client each. *)
Inductive Adapter : Type := Finnhub | AlphaVantage | Polygon.

(** The four operations of the service that reach an upstream. *)
Inductive Operation : Type := OpQuote | OpProfile | OpHistorical | OpOptions.

(** One HTTP request sent to an upstream. *)
Record Call : Type := mkCall {
  callOperation : Operation;
  callAdapter : Adapter;
  callSymbol : string
}.

(** An [async] computation: it reads the log of the calls already sent,
    and answers [None] when the fuel of a recursive method is exhausted,
    otherwise its outcome and the log extended with the calls it sent. *)
Definition IO (A : Type) : Type := list Call -> option (Result A * list Call).

Definition ret {A : Type} (a : A) : IO A :=
  fun log => Some (Ok a, log).

Definition throw {A : Type} (e : Error) : IO A :=
  fun log => Some (Err e, log).

Definition outOfFuel {A : Type} : IO A :=
  fun _ => None.

Definition bind {A B : Type} (m : IO A) (f : A -> IO B) : IO B :=
  fun log =>
    match m log with
    | None => None
    | Some (Ok a, log') => f a log'
    | Some (Err e, log') => Some (Err e, log')
    end.

(** [try { return await m } catch (error) { handler }]. *)
Definition tryCatch {A : Type} (m : IO A) (handler : Error -> IO A) : IO A :=
  fun log =>
    match m log with
    | None => None
    | Some (Ok a, log') => Some (Ok a, log')
    | Some (Err e, log') => handler e log'
    end.

(** A computation that cannot suspend, lifted. *)
Definition liftResult {A : Type} (r : Result A) : IO A :=
  fun log => Some (r, log).

(** [await client.get(...)]: the call is logged and the upstream answers;
    [answer n] is what it answers when [n] calls were sent before. *)
Definition httpGet {A : Type} (op : Operation) (adapter : Adapter)
  (symbol : string) (answer : nat -> Result A) : IO A :=
  fun log => Some (answer (length log), log ++ [mkCall op adapter symbol]).

(** A parameter with a default value: [undefined] takes the default. *)
Definition defaultArg {A : Type} (arg : option A) (dflt : A) : A :=
  match arg with
  | Some a => a
  | None => dflt
  end.

End Io.

Declare Scope io_scope.
Delimit Scope io_scope with io.
Notation "x <- m ;; k" := (Io.bind m (fun x => k))
  (at level 61, m at next level, right associativity) : io_scope.

(** ** Canonical entities and upstream payloads *)

Module Entities.

Import Io.

Record Quote : Type := mkQuote {
  quoteSymbol : string;
  quotePrice : option Q;
  quoteChange : option Q;
  quotePercentChange : option Q;
  quoteHigh : option Q;
  quoteLow : option Q;
  quoteOpen : option Q;
  quotePreviousClose : option Q;
  quoteSource : string
}.

Record CompanyProfile : Type := mkCompanyProfile {
  profileSymbol : string;
  profileName : option string;
  profileExchange : option string;
  profileIndustry : option string;
  profileMarketCap : option Q;
  profileSource : string
}.

Record OptionContract : Type := mkOptionContract {
  contractType : string;
  contractSymbol : string;
  contractStrike : option Q;
  contractExpiration : string
}.

Record OptionsChain : Type := mkOptionsChain {
  chainSymbol : string;
  chainExpirationDates : list string;
  chainOptions : list OptionContract;
  chainSource : string
}.

(** The object returned by the [getHistoricalData*] methods. *)
Record PriceSeries : Type := mkPriceSeries {
  seriesSymbol : string;
  seriesInterval : string;
  data : list (Bar (option Q));
  seriesSource : string
}.

(** [response.data] of Finnhub's [/stock/candle]: parallel arrays, each
    of which may be missing (a [no_data] answer carries none of them). *)
Record FinnhubCandles : Type := mkFinnhubCandles {
  candleT : option (list Z);
  candleO : option (list Q);
  candleH : option (list Q);
  candleL : option (list Q);
  candleC : option (list Q);
  candleV : option (list Q)
}.

(** One value of an Alpha Vantage time series, its five fields as
    [parseFloat] and [parseInt] read them ([None] for [NaN]). *)
Record AlphaVantageEntry : Type := mkAlphaVantageEntry {
  entryOpen : option Q;
  entryHigh : option Q;
  entryLow : option Q;
  entryClose : option Q;
  entryVolume : option Q
}.

(** [response.data] of Alpha Vantage: the value under a key, when
    present, is an object from date strings to entries, listed here in
    the order [for ... in] enumerates it; an entry that is [null] is
    [None]. *)
Definition AlphaVantageData : Type :=
  string -> option (list (string * option AlphaVantageEntry)).

(** One element of [response.data.results] of Polygon's aggregates. *)
Record PolygonAgg : Type := mkPolygonAgg {
  aggT : Z;
  aggO : option Q;
  aggH : option Q;
  aggL : option Q;
  aggC : option Q;
  aggV : option Q
}.

(** What the upstreams answer.  The index is the number of calls the
    request has sent before; for quotes, profiles and option chains the
    answer is the outcome of the adapter method as a whole (the HTTP call
    and the translation of its payload), for historical data it is the
    payload, which the adapter methods below translate. *)
Record Upstream : Type := mkUpstream {
  quoteOf : Adapter -> nat -> Result Quote;
  profileOf : Adapter -> nat -> Result CompanyProfile;
  optionsOf : Adapter -> nat -> Result OptionsChain;
  finnhubCandles : nat -> Result FinnhubCandles;
  alphaVantageData : nat -> Result AlphaVantageData;
  polygonResults : nat -> Result (option (list PolygonAgg))
}.

(** The mutable state of a [MarketDataService]. *)
Record Service : Type := mkService {
  defaultProvider : string
}.

End Entities.

(** ** The service: adapters and fallback router *)

Module MarketDataService.

Import Io Entities.
Local Open Scope string_scope.
Local Open Scope io_scope.

(** [setDefaultProvider(provider)]: the outcome and the state after it. *)
Definition setDefaultProvider (svc : Service) (provider : string)
  : Result unit * Service :=
  if existsb (String.eqb provider) ["finnhub"; "alphavantage"; "polygon"]
  then (Ok tt, {| defaultProvider := provider |})
  else (Err "Invalid provider. Choose from: finnhub, alphavantage, polygon", svc).

(** [date.toISOString()] on the instant of [ms] milliseconds: a
    [RangeError] outside the range of valid dates. *)
Definition toISOString (ms : Z) : Result Z :=
  if (Z.abs ms <=? 8640000000000000)%Z then Ok ms
  else Err "RangeError: Invalid time value".

(** Reading an array that the payload may lack. *)
Definition arrayOf {A : Type} (field : option (list A)) : Result (list A) :=
  match field with
  | Some xs => Ok xs
  | None => Err "TypeError: Cannot read properties of undefined"
  end.

Definition bindResult {A B : Type} (r : Result A) (f : A -> Result B) : Result B :=
  match r with
  | Ok a => f a
  | Err e => Err e
  end.

(** A loop that pushes one element per step and stops at the first throw. *)
Fixpoint collect {A B : Type} (f : A -> Result B) (xs : list A) : Result (list B) :=
  match xs with
  | [] => Ok []
  | x :: xs' =>
      bindResult (f x) (fun b =>
      bindResult (collect f xs') (fun bs => Ok (b :: bs)))
  end.

(** [a[0], a[1], ...] paired with their indices. *)
Definition indexed {A : Type} (xs : list A) : list (nat * A) :=
  combine (seq 0 (length xs)) xs.

(** The comparator of [data.sort]: [new Date(a.timestamp) - new Date(b.timestamp)]. *)
Definition compareBars {V : Type} (a b : Bar V) : Z :=
  (timestamp a - timestamp b)%Z.

Fixpoint insertBar {V : Type} (x : Bar V) (sorted : list (Bar V)) : list (Bar V) :=
  match sorted with
  | [] => [x]
  | y :: rest =>
      if (compareBars x y <=? 0)%Z then x :: y :: rest
      else y :: insertBar x rest
  end.

(** [data.sort(compareBars)]: [Array.prototype.sort] is stable, so its
    result is that of the stable insertion sort. *)
Definition sortBars {V : Type} (bars : list (Bar V)) : list (Bar V) :=
  fold_right insertBar [] bars.

(** [a >= b] and [a <= b] on dates; [None] is an invalid date, which
    compares false with everything. *)
Definition dateGeb (a b : option Z) : bool :=
  match a, b with
  | Some x, Some y => (y <=? x)%Z
  | _, _ => false
  end.

Definition dateLeb (a b : option Z) : bool :=
  match a, b with
  | Some x, Some y => (x <=? y)%Z
  | _, _ => false
  end.

(** The [dataKey] that [getHistoricalDataAlphaVantage] computes from the
    interval. *)
Definition alphaVantageDataKey (interval : string) : string :=
  if interval =? "1m" then "Time Series (1 min)"
  else if interval =? "5m" then "Time Series (5 min)"
  else if interval =? "15m" then "Time Series (15 min)"
  else if interval =? "30m" then "Time Series (30 min)"
  else if interval =? "1h" then "Time Series (60 min)"
  else if interval =? "1w" then "Weekly Time Series"
  else if interval =? "1M" then "Monthly Time Series"
  else "Time Series (Daily)".

Section WithUpstream.

(** The upstreams of the request at hand. *)
Variable up : Upstream.

(** [new Date(s).getTime()] on a string: the instant in milliseconds,
    [None] for an invalid date. *)
Variable parseDate : string -> option Z.

(** *** Quotes *)

Definition getQuoteFinnhub (symbol : string) : IO Quote :=
  httpGet OpQuote Finnhub symbol (quoteOf up Finnhub).

Definition getQuoteAlphaVantage (symbol : string) : IO Quote :=
  httpGet OpQuote AlphaVantage symbol (quoteOf up AlphaVantage).

Definition getQuotePolygon (symbol : string) : IO Quote :=
  httpGet OpQuote Polygon symbol (quoteOf up Polygon).

(** The [switch (provider)] of [getQuote]. *)
Definition switchQuote (provider symbol : string) : IO Quote :=
  if provider =? "finnhub" then getQuoteFinnhub symbol
  else if provider =? "alphavantage" then getQuoteAlphaVantage symbol
  else if provider =? "polygon" then getQuotePolygon symbol
  else getQuoteFinnhub symbol.

(** [getQuote(symbol, provider = this.defaultProvider)]. *)
Fixpoint getQuote (fuel : nat) (svc : Service) (symbol : string)
  (provider : option string) : IO Quote :=
  match fuel with
  | O => outOfFuel
  | S fuel' =>
      let provider := defaultArg provider (defaultProvider svc) in
      tryCatch (switchQuote provider symbol)
        (fun error =>
           if provider =? defaultProvider svc then
             let fallbackProvider :=
               if provider =? "finnhub" then "alphavantage" else "finnhub" in
             getQuote fuel' svc symbol (Some fallbackProvider)
           else throw error)
  end.

(** *** Company profiles *)

Definition getCompanyProfileFinnhub (symbol : string) : IO CompanyProfile :=
  httpGet OpProfile Finnhub symbol (profileOf up Finnhub).

Definition getCompanyProfileAlphaVantage (symbol : string) : IO CompanyProfile :=
  httpGet OpProfile AlphaVantage symbol (profileOf up AlphaVantage).

Definition getCompanyProfilePolygon (symbol : string) : IO CompanyProfile :=
  httpGet OpProfile Polygon symbol (profileOf up Polygon).

(** The [switch (provider)] of [getCompanyProfile]. *)
Definition switchProfile (provider symbol : string) : IO CompanyProfile :=
  if provider =? "finnhub" then getCompanyProfileFinnhub symbol
  else if provider =? "alphavantage" then getCompanyProfileAlphaVantage symbol
  else if provider =? "polygon" then getCompanyProfilePolygon symbol
  else getCompanyProfileFinnhub symbol.

(** [getCompanyProfile(symbol, provider = this.defaultProvider)]. *)
Fixpoint getCompanyProfile (fuel : nat) (svc : Service) (symbol : string)
  (provider : option string) : IO CompanyProfile :=
  match fuel with
  | O => outOfFuel
  | S fuel' =>
      let provider := defaultArg provider (defaultProvider svc) in
      tryCatch (switchProfile provider symbol)
        (fun error =>
           if provider =? defaultProvider svc then
             let fallbackProvider :=
               if provider =? "finnhub" then "alphavantage" else "finnhub" in
             getCompanyProfile fuel' svc symbol (Some fallbackProvider)
           else throw error)
  end.

(** *** Historical data *)

(** The bar that the loop of [getHistoricalDataFinnhub] pushes at index [i]. *)
Definition finnhubBar (candles : FinnhubCandles) (entry : nat * Z)
  : Result (Bar (option Q)) :=
  let '(i, t) := entry in
  bindResult (toISOString (t * 1000)) (fun ts =>
  bindResult (arrayOf (candleO candles)) (fun o =>
  bindResult (arrayOf (candleH candles)) (fun h =>
  bindResult (arrayOf (candleL candles)) (fun l =>
  bindResult (arrayOf (candleC candles)) (fun c =>
  bindResult (arrayOf (candleV candles)) (fun v =>
  Ok {| timestamp := ts;
        open := nth_error o i;
        high := nth_error h i;
        low := nth_error l i;
        close := nth_error c i;
        volume := nth_error v i |})))))).

(** [getHistoricalDataFinnhub(symbol, interval, from, to)]. *)
Definition getHistoricalDataFinnhub (symbol interval : string) : IO PriceSeries :=
  candles <- httpGet OpHistorical Finnhub symbol (finnhubCandles up) ;;
  t <- liftResult (arrayOf (candleT candles)) ;;
  data <- liftResult (collect (finnhubBar candles) (indexed t)) ;;
  ret {| seriesSymbol := symbol;
         seriesInterval := interval;
         data := data;
         seriesSource := "finnhub" |}.

(** What one iteration of the [for ... in] loop of
    [getHistoricalDataAlphaVantage] pushes: nothing for a date that is
    invalid or outside the window, one bar for a date inside it, and a
    [TypeError] when the entry of a date inside the window is [null]. *)
Definition alphaVantageBar (fromDate toDate : option Z)
  (kv : string * option AlphaVantageEntry) : Result (list (Bar (option Q))) :=
  let '(date, entry) := kv in
  let currentDate := parseDate date in
  if dateGeb currentDate fromDate && dateLeb currentDate toDate then
    match currentDate with
    | Some ms =>
        match entry with
        | Some entry =>
            Ok [ {| timestamp := ms;
                    open := entryOpen entry;
                    high := entryHigh entry;
                    low := entryLow entry;
                    close := entryClose entry;
                    volume := entryVolume entry |} ]
        | None => Err "TypeError: Cannot read properties of null"
        end
    | None => Ok []
    end
  else Ok [].

(** The bars that the [for ... in] loop of
    [getHistoricalDataAlphaVantage] pushes, or the error it stops at. *)
Definition alphaVantageBars (fromDate toDate : option Z)
  (timeSeriesData : list (string * option AlphaVantageEntry))
  : Result (list (Bar (option Q))) :=
  bindResult (collect (alphaVantageBar fromDate toDate) timeSeriesData)
             (fun pushed => Ok (concat pushed)).

(** [getHistoricalDataAlphaVantage(symbol, interval, from, to)]. *)
Definition getHistoricalDataAlphaVantage (symbol interval from to : string)
  : IO PriceSeries :=
  let dataKey := alphaVantageDataKey interval in
  response <- httpGet OpHistorical AlphaVantage symbol (alphaVantageData up) ;;
  let timeSeriesData := defaultArg (response dataKey) [] in
  let fromDate := parseDate from in
  let toDate := parseDate to in
  data <- liftResult (alphaVantageBars fromDate toDate timeSeriesData) ;;
  let data := sortBars data in
  ret {| seriesSymbol := symbol;
         seriesInterval := interval;
         data := data;
         seriesSource := "alphavantage" |}.

(** The bar that [getHistoricalDataPolygon] maps an aggregate to. *)
Definition polygonBar (item : PolygonAgg) : Result (Bar (option Q)) :=
  bindResult (toISOString (aggT item)) (fun ts =>
  Ok {| timestamp := ts;
        open := aggO item;
        high := aggH item;
        low := aggL item;
        close := aggC item;
        volume := aggV item |}).

(** [getHistoricalDataPolygon(symbol, interval, from, to)]. *)
Definition getHistoricalDataPolygon (symbol interval : string) : IO PriceSeries :=
  results <- httpGet OpHistorical Polygon symbol (polygonResults up) ;;
  results <- liftResult (arrayOf results) ;;
  data <- liftResult (collect polygonBar results) ;;
  ret {| seriesSymbol := symbol;
         seriesInterval := interval;
         data := data;
         seriesSource := "polygon" |}.

(** The [switch (provider)] of [getHistoricalData]. *)
Definition switchHistorical (provider symbol interval from to : string)
  : IO PriceSeries :=
  if provider =? "finnhub" then getHistoricalDataFinnhub symbol interval
  else if provider =? "alphavantage" then
    getHistoricalDataAlphaVantage symbol interval from to
  else if provider =? "polygon" then getHistoricalDataPolygon symbol interval
  else getHistoricalDataFinnhub symbol interval.

(** [getHistoricalData(symbol, interval = '1d', from, to,
    provider = this.defaultProvider)]. *)
Fixpoint getHistoricalData (fuel : nat) (svc : Service) (symbol : string)
  (interval : option string) (from to : string) (provider : option string)
  : IO PriceSeries :=
  match fuel with
  | O => outOfFuel
  | S fuel' =>
      let interval := defaultArg interval "1d" in
      let provider := defaultArg provider (defaultProvider svc) in
      tryCatch (switchHistorical provider symbol interval from to)
        (fun error =>
           if provider =? defaultProvider svc then
             let fallbackProvider :=
               if provider =? "finnhub" then "alphavantage" else "finnhub" in
             getHistoricalData fuel' svc symbol (Some interval) from to
                               (Some fallbackProvider)
           else throw error)
  end.

(** *** Option chains *)

Definition getOptionsChainFinnhub (symbol : string) : IO OptionsChain :=
  httpGet OpOptions Finnhub symbol (optionsOf up Finnhub).

Definition getOptionsChainPolygon (symbol : string) : IO OptionsChain :=
  httpGet OpOptions Polygon symbol (optionsOf up Polygon).

(** The [switch (provider)] of [getOptionsChain]. *)
Definition switchOptions (provider symbol : string) : IO OptionsChain :=
  if provider =? "finnhub" then getOptionsChainFinnhub symbol
  else if provider =? "polygon" then getOptionsChainPolygon symbol
  else getOptionsChainFinnhub symbol.

(** [getOptionsChain(symbol, provider = this.defaultProvider)]. *)
Fixpoint getOptionsChain (fuel : nat) (svc : Service) (symbol : string)
  (provider : option string) : IO OptionsChain :=
  match fuel with
  | O => outOfFuel
  | S fuel' =>
      let provider := defaultArg provider (defaultProvider svc) in
      tryCatch (switchOptions provider symbol)
        (fun error =>
           if (provider =? defaultProvider svc) && negb (provider =? "polygon") then
             getOptionsChain fuel' svc symbol (Some "polygon")
           else throw error)
  end.

End WithUpstream.

End MarketDataService.

(** ** Requests, as the routes of the controller pass them to the service *)

Module Router.

Import Io Entities MarketDataService.
Local Open Scope string_scope.
Local Open Scope io_scope.

(** A request with the arguments of the operation it asks for. *)
Inductive Request : Type :=
| QuoteRequest (symbol : string)
| ProfileRequest (symbol : string)
| HistoricalRequest (symbol : string) (interval : option string) (from to : string)
| OptionsRequest (symbol : string).

Inductive Response : Type :=
| QuoteResponse (quote : Quote)
| ProfileResponse (profile : CompanyProfile)
| SeriesResponse (series : PriceSeries)
| ChainResponse (chain : OptionsChain).

Definition mapIO {A B : Type} (f : A -> B) (m : IO A) : IO B :=
  a <- m ;; ret (f a).

Definition operationOf (req : Request) : Operation :=
  match req with
  | QuoteRequest _ => OpQuote
  | ProfileRequest _ => OpProfile
  | HistoricalRequest _ _ _ _ => OpHistorical
  | OptionsRequest _ => OpOptions
  end.

Definition symbolOf (req : Request) : string :=
  match req with
  | QuoteRequest symbol
  | ProfileRequest symbol
  | HistoricalRequest symbol _ _ _
  | OptionsRequest symbol => symbol
  end.

Definition isOptions (req : Request) : bool :=
  match req with
  | OptionsRequest _ => true
  | _ => false
  end.

(** The adapter that the [switch] of the operation selects for a
    provider name; a name without a [case] takes the [default:] branch. *)
Definition adapterOf (req : Request) (provider : string) : Adapter :=
  if isOptions req then
    if provider =? "polygon" then Polygon else Finnhub
  else
    if provider =? "finnhub" then Finnhub
    else if provider =? "alphavantage" then AlphaVantage
    else if provider =? "polygon" then Polygon
    else Finnhub.

(** The call that serving [req] through [provider] sends. *)
Definition callOf (req : Request) (provider : string) : Call :=
  mkCall (operationOf req) (adapterOf req provider) (symbolOf req).

(** The alternate provider of the quote, profile and historical
    operations, as the specification words it. *)
Definition alternate (primary : string) : string :=
  if primary =? "finnhub" then "alphavantage" else "finnhub".

(** The provider that the [catch] block of the method retries with after
    a failure of [provider], if it retries. *)
Definition fallbackOf (svc : Service) (req : Request) (provider : string)
  : option string :=
  if isOptions req then
    if (provider =? defaultProvider svc) && negb (provider =? "polygon")
    then Some "polygon" else None
  else
    if provider =? defaultProvider svc
    then Some (if provider =? "finnhub" then "alphavantage" else "finnhub")
    else None.

(** The request with its defaulted arguments filled in, as the method
    passes them to itself. *)
Definition resolved (req : Request) : Request :=
  match req with
  | HistoricalRequest symbol interval from to =>
      HistoricalRequest symbol (Some (defaultArg interval "1d")) from to
  | _ => req
  end.

Section WithUpstream.

Variable up : Upstream.
Variable parseDate : string -> option Z.

(** The service method that a request invokes. *)
Definition serve (fuel : nat) (svc : Service) (req : Request)
  (provider : option string) : IO Response :=
  match req with
  | QuoteRequest symbol =>
      mapIO QuoteResponse (getQuote up fuel svc symbol provider)
  | ProfileRequest symbol =>
      mapIO ProfileResponse (getCompanyProfile up fuel svc symbol provider)
  | HistoricalRequest symbol interval from to =>
      mapIO SeriesResponse
            (getHistoricalData up parseDate fuel svc symbol interval from to provider)
  | OptionsRequest symbol =>
      mapIO ChainResponse (getOptionsChain up fuel svc symbol provider)
  end.

(** The adapter call that the [switch] of the method makes for [provider]. *)
Definition adapterCall (req : Request) (provider : string) : IO Response :=
  match req with
  | QuoteRequest symbol =>
      mapIO QuoteResponse (switchQuote up provider symbol)
  | ProfileRequest symbol =>
      mapIO ProfileResponse (switchProfile up provider symbol)
  | HistoricalRequest symbol interval from to =>
      mapIO SeriesResponse
            (switchHistorical up parseDate provider symbol
                              (defaultArg interval "1d") from to)
  | OptionsRequest symbol =>
      mapIO ChainResponse (switchOptions up provider symbol)
  end.

End WithUpstream.

(** A price series is in strictly ascending order of timestamp; no two
    of its bars then share one. *)
Definition StrictlyAscending (bars : list (Bar (option Q))) : Prop :=
  StronglySorted Z.lt (map (@timestamp (option Q)) bars).

(** A price series is in ascending order of timestamp. *)
Definition Ascending (bars : list (Bar (option Q))) : Prop :=
  StronglySorted Z.le (map (@timestamp (option Q)) bars).

End Router.

(** ** Scenarios used to run the service on concrete inputs *)

Module Scenario.

Import Io Entities.
Local Open Scope string_scope.

Definition finnhubQuote : Quote :=
  {| quoteSymbol := "AAPL"; quotePrice := Some (150 # 1);
     quoteChange := Some (1 # 1); quotePercentChange := Some (2 # 3);
     quoteHigh := Some (151 # 1); quoteLow := Some (148 # 1);
     quoteOpen := Some (149 # 1); quotePreviousClose := Some (149 # 1);
     quoteSource := "finnhub" |}.

Definition alphaVantageQuote : Quote :=
  {| quoteSymbol := "AAPL"; quotePrice := Some (150 # 1);
     quoteChange := Some (1 # 1); quotePercentChange := Some (2 # 3);
     quoteHigh := Some (151 # 1); quoteLow := Some (148 # 1);
     quoteOpen := Some (149 # 1); quotePreviousClose := Some (149 # 1);
     quoteSource := "alphavantage" |}.

Definition finnhubChain : OptionsChain :=
  {| chainSymbol := "AAPL";
     chainExpirationDates := ["2024-06-21"];
     chainOptions :=
       [ {| contractType := "call"; contractSymbol := "AAPL240621C00150000";
            contractStrike := Some (150 # 1); contractExpiration := "2024-06-21" |} ];
     chainSource := "finnhub" |}.

Definition polygonChain : OptionsChain :=
  {| chainSymbol := "AAPL";
     chainExpirationDates := ["2024-06-21"];
     chainOptions :=
       [ {| contractType := "put"; contractSymbol := "O:AAPL240621P00150000";
            contractStrike := Some (150 # 1); contractExpiration := "2024-06-21" |} ];
     chainSource := "polygon" |}.

Definition profile (source : string) : CompanyProfile :=
  {| profileSymbol := "AAPL"; profileName := Some "Apple Inc";
     profileExchange := Some "NASDAQ"; profileIndustry := Some "Technology";
     profileMarketCap := None; profileSource := source |}.

Definition down {A : Type} : Result A := Err "timeout of 10000ms exceeded".

(** Two daily candles, of 2024-01-02 and 2024-01-01, that Finnhub sends
    newest first. *)
Definition descendingCandles : FinnhubCandles :=
  {| candleT := Some [1704153600; 1704067200]%Z;
     candleO := Some [10 # 1; 11 # 1];
     candleH := Some [12 # 1; 13 # 1];
     candleL := Some [9 # 1; 10 # 1];
     candleC := Some [11 # 1; 12 # 1];
     candleV := Some [1000 # 1; 2000 # 1] |}.

(** Finnhub does not answer, Alpha Vantage and Polygon do. *)
Definition finnhubDown : Upstream :=
  {| quoteOf := fun adapter _ =>
       match adapter with
       | Finnhub => down
       | _ => Ok alphaVantageQuote
       end;
     profileOf := fun adapter _ =>
       match adapter with
       | Finnhub => down
       | AlphaVantage => Ok (profile "alphavantage")
       | Polygon => Ok (profile "polygon")
       end;
     optionsOf := fun adapter _ =>
       match adapter with
       | Polygon => Ok polygonChain
       | _ => down
       end;
     finnhubCandles := fun _ => down;
     alphaVantageData := fun _ => Ok (fun _ => None);
     polygonResults := fun _ => Ok (Some []) |}.

(** Every upstream answers; Finnhub sends its candles newest first. *)
Definition allUp : Upstream :=
  {| quoteOf := fun adapter _ =>
       match adapter with
       | Finnhub => Ok finnhubQuote
       | _ => Ok alphaVantageQuote
       end;
     profileOf := fun adapter _ =>
       match adapter with
       | Finnhub => Ok (profile "finnhub")
       | AlphaVantage => Ok (profile "alphavantage")
       | Polygon => Ok (profile "polygon")
       end;
     optionsOf := fun adapter _ =>
       match adapter with
       | Polygon => Ok polygonChain
       | _ => Ok finnhubChain
       end;
     finnhubCandles := fun _ => Ok descendingCandles;
     alphaVantageData := fun _ => Ok (fun _ => None);
     polygonResults := fun _ => Ok (Some []) |}.

(** Three daily entries, listed newest first as Alpha Vantage sends them. *)
Definition dailySeries : list (string * option AlphaVantageEntry) :=
  let entry c :=
    Some {| entryOpen := Some c; entryHigh := Some c; entryLow := Some c;
            entryClose := Some c; entryVolume := Some (1000 # 1) |} in
  [("2024-01-03", entry (12 # 1)); ("2024-01-02", entry (11 # 1));
   ("2024-01-01", entry (10 # 1))].

(** Alpha Vantage answers with [dailySeries]; the others do not answer. *)
Definition alphaVantageUp : Upstream :=
  {| quoteOf := fun _ _ => down;
     profileOf := fun _ _ => down;
     optionsOf := fun _ _ => down;
     finnhubCandles := fun _ => down;
     alphaVantageData := fun _ =>
       Ok (fun key => if key =? "Time Series (Daily)" then Some dailySeries else None);
     polygonResults := fun _ => down |}.

(** The dates of the scenarios, parsed. *)
Definition parseDate (s : string) : option Z :=
  if s =? "2024-01-01" then Some 1704067200000%Z
  else if s =? "2024-01-02" then Some 1704153600000%Z
  else if s =? "2024-01-03" then Some 1704240000000%Z
  else if s =? "2024-12-31" then Some 1735603200000%Z
  else None.

Definition finnhubService : Service := {| defaultProvider := "finnhub" |}.

Definition alphaVantageService : Service := {| defaultProvider := "alphavantage" |}.

(** Fifty daily bars whose closes go up and down. *)
Definition fiftyBars : list (Bar Q) :=
  map (fun i : nat =>
         let c := (100 + inject_Z (Z.of_nat (i mod 7)) - inject_Z (Z.of_nat (i mod 3)))%Q in
         {| timestamp := (1704067200000 + 86400000 * Z.of_nat i)%Z;
            open := c; high := (c + 1)%Q; low := (c - 1)%Q; close := c;
            volume := 1000 # 1 |})
      (seq 0 50).

(** Fifteen closes, the shortest series that has an RSI of period 14. *)
Definition fifteenCloses : list Q :=
  [44#1; 45#1; 43#1; 44#1; 46#1; 47#1; 45#1; 46#1; 48#1; 47#1; 49#1; 50#1;
   48#1; 49#1; 51#1].

End Scenario.

(** ** The life of a service *)

Module ServiceState.

Import Io Entities MarketDataService.
Local Open Scope string_scope.

(** The state that the constructor of [MarketDataService] sets up. *)
Definition construct : Service := {| defaultProvider := "finnhub" |}.

(** The provider names that [setDefaultProvider] accepts. *)
Definition validProviders : list string := ["finnhub"; "alphavantage"; "polygon"].

(** The state after a sequence of calls of [setDefaultProvider], the
    ones that throw included. *)
Definition setDefaultProviders (svc : Service) (providers : list string) : Service :=
  fold_left (fun svc provider => snd (setDefaultProvider svc provider)) providers svc.

End ServiceState.

(** ** More scenarios *)

Module Cases.

Import Io Entities.
Local Open Scope string_scope.

(** Two daily aggregates that Polygon sends oldest first. *)
Definition aggregates : list PolygonAgg :=
  [ {| aggT := 1704067200000; aggO := Some (10 # 1); aggH := Some (12 # 1);
       aggL := Some (9 # 1); aggC := Some (11 # 1); aggV := Some (1000 # 1) |};
    {| aggT := 1704153600000; aggO := Some (11 # 1); aggH := Some (13 # 1);
       aggL := Some (10 # 1); aggC := Some (12 # 1); aggV := None |} ].

(** Polygon answers with [aggregates]; Finnhub answers a historical
    request with [no_data]; Alpha Vantage answers with a note in place of
    the data (its answer to a caller over the rate limit). *)
Definition polygonUp : Upstream :=
  {| quoteOf := fun _ _ => Scenario.down;
     profileOf := fun _ _ => Scenario.down;
     optionsOf := fun _ _ => Scenario.down;
     finnhubCandles := fun _ =>
       Ok {| candleT := None; candleO := None; candleH := None;
             candleL := None; candleC := None; candleV := None |};
     alphaVantageData := fun _ => Ok (fun _ => None);
     polygonResults := fun _ => Ok (Some aggregates) |}.

(** A daily series in which the entry of 2024-01-02 is [null]. *)
Definition seriesWithNull : list (string * option AlphaVantageEntry) :=
  [("2024-01-02", None);
   ("2024-01-01",
    Some {| entryOpen := Some (10 # 1); entryHigh := Some (10 # 1);
            entryLow := Some (10 # 1); entryClose := Some (10 # 1);
            entryVolume := Some (1000 # 1) |})].

(** Alpha Vantage answers with [seriesWithNull]; the others do not
    answer. *)
Definition nullEntryUp : Upstream :=
  {| quoteOf := fun _ _ => Scenario.down;
     profileOf := fun _ _ => Scenario.down;
     optionsOf := fun _ _ => Scenario.down;
     finnhubCandles := fun _ => Scenario.down;
     alphaVantageData := fun _ =>
       Ok (fun key => if key =? "Time Series (Daily)"
                      then Some seriesWithNull else None);
     polygonResults := fun _ => Scenario.down |}.

(** [parseFloat] on the strings of the scenarios. *)
Definition parseFloat (s : string) : option Q :=
  if s =? "0.67" then Some (67 # 100)
  else if s =? "1.00" then Some (1 # 1)
  else if s =? "149.00" then Some (149 # 1)
  else None.

End Cases.

(** ** The controller *)

Module Controller.

Import Io Entities MarketDataService Indicators.
Local Open Scope string_scope.

(** [req.query] of a request in which no parameter is repeated or
    bracketed: each parameter is absent or a string.  A query in which
    Express parses a parameter to an array or an object is outside this
    record, and outside what is proved of the handlers. *)
Record Query : Type := mkQuery {
  querySymbol : option string;
  queryInterval : option string;
  queryFrom : option string;
  queryTo : option string;
  queryProvider : option string
}.

(** [!value] on a query parameter: it is absent or the empty string. *)
Definition missing (value : option string) : bool :=
  match value with
  | None => true
  | Some s => s =? ""
  end.

(** The string of a parameter that is not [missing]. *)
Definition valueOf (value : option string) : string := defaultArg value "".

(** [value || dflt] on a query parameter. *)
Definition orElse (value : option string) (dflt : string) : string :=
  if missing value then dflt else valueOf value.

(** The series as the engine can compute with it: [None] when a value of
    a bar is not a number, where JavaScript computes with [NaN], which
    this development does not model. *)
Definition numericBar (bar : Bar (option Q)) : option (Bar Q) :=
  match open bar, high bar, low bar, close bar, volume bar with
  | Some o, Some h, Some l, Some c, Some v =>
      Some {| timestamp := timestamp bar; open := o; high := h; low := l;
              close := c; volume := v |}
  | _, _, _, _, _ => None
  end.

Fixpoint numericBars (bars : list (Bar (option Q))) : option (list (Bar Q)) :=
  match bars with
  | [] => Some []
  | bar :: rest =>
      match numericBar bar, numericBars rest with
      | Some b, Some bs => Some (b :: bs)
      | _, _ => None
      end
  end.

(** The JSON bodies that the handlers send. *)
Inductive Body : Type :=
| MessageBody (message : string)
| FailureBody (message : string) (error : Error)
| QuoteBody (quote : Quote)
| ProfileBody (profile : CompanyProfile)
| SeriesBody (series : PriceSeries)
| ChainBody (chain : OptionsChain)
| IndicatorsBody (symbol : string) (indicators : option IndicatorSet)
                 (source : string).

(** [res.status(status).json(body)]. *)
Record HttpResponse : Type := mkHttpResponse {
  status : nat;
  body : Body
}.

(** A handler: it reads the log of the upstream calls, and answers the
    response it sends and the log extended with the calls it made, or
    [None] when the fuel of the service method is exhausted. *)
Definition Handler : Type := list Call -> option (HttpResponse * list Call).

Definition reply (response : HttpResponse) : Handler :=
  fun log => Some (response, log).

(** The [try] of a handler around the call of the service, and its
    [catch], which answers 500 with the message of the error. *)
Definition respond {A : Type} (call : IO A) (success : A -> HttpResponse)
  (failure : string) : Handler :=
  fun log =>
    match call log with
    | None => None
    | Some (Ok a, log') => Some (success a, log')
    | Some (Err e, log') =>
        Some ({| status := 500; body := FailureBody failure e |}, log')
    end.

Definition symbolRequired : HttpResponse :=
  {| status := 400; body := MessageBody "Symbol parameter is required" |}.

Definition datesRequired : HttpResponse :=
  {| status := 400; body := MessageBody "From and to date parameters are required" |}.

Section WithService.

Variable up : Upstream.
Variable parseDate : string -> option Z.

(** The fuel of the service methods and [this.marketDataService]. *)
Variable fuel : nat.
Variable svc : Service.

(** [getQuote(req, res)]. *)
Definition getQuote (query : Query) : Handler :=
  if missing (querySymbol query) then reply symbolRequired
  else
    let symbol := valueOf (querySymbol query) in
    respond (MarketDataService.getQuote up fuel svc symbol (queryProvider query))
            (fun quote => {| status := 200; body := QuoteBody quote |})
            "Failed to fetch quote data".

(** [getCompanyProfile(req, res)]. *)
Definition getCompanyProfile (query : Query) : Handler :=
  if missing (querySymbol query) then reply symbolRequired
  else
    let symbol := valueOf (querySymbol query) in
    respond (MarketDataService.getCompanyProfile up fuel svc symbol
                                                 (queryProvider query))
            (fun profile => {| status := 200; body := ProfileBody profile |})
            "Failed to fetch company profile".

(** [getHistoricalData(req, res)]. *)
Definition getHistoricalData (query : Query) : Handler :=
  if missing (querySymbol query) then reply symbolRequired
  else if missing (queryFrom query) || missing (queryTo query) then
    reply datesRequired
  else
    let symbol := valueOf (querySymbol query) in
    respond (MarketDataService.getHistoricalData up parseDate fuel svc symbol
               (Some (orElse (queryInterval query) "1d"))
               (valueOf (queryFrom query)) (valueOf (queryTo query))
               (queryProvider query))
            (fun historicalData =>
               {| status := 200; body := SeriesBody historicalData |})
            "Failed to fetch historical data".

(** [getOptionsChain(req, res)]. *)
Definition getOptionsChain (query : Query) : Handler :=
  if missing (querySymbol query) then reply symbolRequired
  else
    let symbol := valueOf (querySymbol query) in
    respond (MarketDataService.getOptionsChain up fuel svc symbol
                                               (queryProvider query))
            (fun optionsChain => {| status := 200; body := ChainBody optionsChain |})
            "Failed to fetch options chain".

(** [calculateIndicators(req, res)]. *)
Definition calculateIndicators (query : Query) : Handler :=
  if missing (querySymbol query) then reply symbolRequired
  else if missing (queryFrom query) || missing (queryTo query) then
    reply datesRequired
  else
    let symbol := valueOf (querySymbol query) in
    respond (MarketDataService.getHistoricalData up parseDate fuel svc symbol
               (Some (orElse (queryInterval query) "1d"))
               (valueOf (queryFrom query)) (valueOf (queryTo query))
               (queryProvider query))
            (fun historicalData =>
               let indicators :=
                 option_map (fun bars => Indicators.calculateIndicators (Some bars))
                            (numericBars (data historicalData)) in
               {| status := 200;
                  body := IndicatorsBody symbol indicators
                                         (seriesSource historicalData) |})
            "Failed to calculate indicators".

(** The routes that reach the service, and the handler of each. *)
Inductive Route : Type :=
| QuoteRoute
| ProfileRoute
| HistoricalRoute
| OptionsRoute
| IndicatorsRoute.

Definition handle (route : Route) : Query -> Handler :=
  match route with
  | QuoteRoute => getQuote
  | ProfileRoute => getCompanyProfile
  | HistoricalRoute => getHistoricalData
  | OptionsRoute => getOptionsChain
  | IndicatorsRoute => calculateIndicators
  end.

End WithService.

End Controller.

(** ** The translation of the quote and option-chain payloads *)

Module Payloads.

Import Io Entities MarketDataService.
Local Open Scope string_scope.

(** *** Quotes of Alpha Vantage *)

(** The object under ['Global Quote'] of [response.data]: each of the
    fields that the adapter reads is a string or is missing. *)
Record GlobalQuote : Type := mkGlobalQuote {
  gqOpen : option string;
  gqHigh : option string;
  gqLow : option string;
  gqPrice : option string;
  gqPreviousClose : option string;
  gqChange : option string;
  gqChangePercent : option string
}.

(** The character of the string ['%']. *)
Definition percentSign : Ascii.ascii := Ascii.ascii_of_nat 37.

(** [s.replace(c, '')] for a pattern of one character: the first
    occurrence is removed. *)
Fixpoint removeFirst (c : Ascii.ascii) (s : string) : string :=
  match s with
  | EmptyString => EmptyString
  | String a rest =>
      if Ascii.eqb a c then rest else String a (removeFirst c rest)
  end.

(** [s.includes(c)] for a pattern of one character. *)
Fixpoint hasChar (c : Ascii.ascii) (s : string) : bool :=
  match s with
  | EmptyString => false
  | String a rest => Ascii.eqb a c || hasChar c rest
  end.

Section WithParseFloat.

(** [parseFloat] on a string: [None] for [NaN]. *)
Variable parseFloat : string -> option Q.

(** [parseFloat(value)] on a value that may be [undefined]. *)
Definition parseFloatOf (value : option string) : option Q :=
  match value with
  | Some s => parseFloat s
  | None => None
  end.

(** The object that [getQuoteAlphaVantage] returns for the payload
    [response.data['Global Quote']], or the [TypeError] that reading a
    property of [undefined] throws. *)
Definition alphaVantageQuoteOf (symbol : string) (payload : option GlobalQuote)
  : Result Quote :=
  match payload with
  | None => Err "TypeError: Cannot read properties of undefined"
  | Some quote =>
      match gqChangePercent quote with
      | None => Err "TypeError: Cannot read properties of undefined"
      | Some percent =>
          Ok {| quoteSymbol := symbol;
                quotePrice := parseFloatOf (gqPrice quote);
                quoteChange := parseFloatOf (gqChange quote);
                quotePercentChange := parseFloat (removeFirst percentSign percent);
                quoteHigh := parseFloatOf (gqHigh quote);
                quoteLow := parseFloatOf (gqLow quote);
                quoteOpen := parseFloatOf (gqOpen quote);
                quotePreviousClose := parseFloatOf (gqPreviousClose quote);
                quoteSource := "alphavantage" |}
      end
  end.

(** The upstreams [up] in which the quotes of Alpha Vantage are those
    that [getQuoteAlphaVantage] translates from the payloads [answer]. *)
Definition withAlphaVantageQuotes (up : Upstream) (symbol : string)
  (answer : nat -> Result (option GlobalQuote)) : Upstream :=
  {| quoteOf := fun adapter n =>
       match adapter with
       | AlphaVantage => bindResult (answer n) (alphaVantageQuoteOf symbol)
       | _ => quoteOf up adapter n
       end;
     profileOf := profileOf up;
     optionsOf := optionsOf up;
     finnhubCandles := finnhubCandles up;
     alphaVantageData := alphaVantageData up;
     polygonResults := polygonResults up |}.

End WithParseFloat.

(** *** Option chains *)

(** A contract of a chain, with the nine fields that both adapters set. *)
Record Contract : Type := mkContract {
  optionType : string;
  optionSymbol : option string;
  optionStrike : option Q;
  optionExpiration : option string;
  optionLastPrice : option Q;
  optionChange : option Q;
  optionVolume : option Q;
  optionOpenInterest : option Q;
  optionImpliedVolatility : option Q
}.

(** The object that the [getOptionsChain*] methods return. *)
Record Chain : Type := mkChain {
  symbol : string;
  expirationDates : list (option string);
  options : list Contract;
  source : string
}.

(** A contract in an answer of Finnhub. *)
Record FinnhubContract : Type := mkFinnhubContract {
  contractName : option string;
  strike : option Q;
  lastPrice : option Q;
  change : option Q;
  volume : option Q;
  openInterest : option Q;
  impliedVolatility : option Q
}.

(** An element of [response.data.data] of Finnhub: [optionsCALL] and
    [optionsPUT] are [expiry.options.CALL] and [expiry.options.PUT], [None]
    when the array, or [expiry.options] itself, is missing. *)
Record FinnhubExpiry : Type := mkFinnhubExpiry {
  expirationDate : option string;
  optionsCALL : option (list FinnhubContract);
  optionsPUT : option (list FinnhubContract)
}.

Definition finnhubContract (type : string) (expiry : FinnhubExpiry)
  (contract : FinnhubContract) : Contract :=
  {| optionType := type;
     optionSymbol := contractName contract;
     optionStrike := strike contract;
     optionExpiration := expirationDate expiry;
     optionLastPrice := lastPrice contract;
     optionChange := change contract;
     optionVolume := volume contract;
     optionOpenInterest := openInterest contract;
     optionImpliedVolatility := impliedVolatility contract |}.

(** The array that the callback of [flatMap] returns for one expiry. *)
Definition finnhubExpiryOptions (expiry : FinnhubExpiry) : Result (list Contract) :=
  bindResult (arrayOf (optionsCALL expiry)) (fun calls =>
  bindResult (arrayOf (optionsPUT expiry)) (fun puts =>
  Ok (map (finnhubContract "call" expiry) calls ++
      map (finnhubContract "put" expiry) puts)%list)).

(** The object that [getOptionsChainFinnhub] returns for the payload
    [response.data.data]. *)
Definition finnhubChainOf (symbol : string) (payload : option (list FinnhubExpiry))
  : Result Chain :=
  bindResult (arrayOf payload) (fun data =>
  bindResult (collect finnhubExpiryOptions data) (fun perExpiry =>
  Ok {| symbol := symbol;
        expirationDates := map expirationDate data;
        options := concat perExpiry;
        source := "finnhub" |})).

(** The number of contracts that an expiry of Finnhub carries. *)
Definition expirySize (expiry : FinnhubExpiry) : nat :=
  length (defaultArg (optionsCALL expiry) []) +
  length (defaultArg (optionsPUT expiry) []).

(** An element of [response.data.results] of Polygon's contracts. *)
Record PolygonContract : Type := mkPolygonContract {
  contract_type : option string;
  ticker : option string;
  strike_price : option Q;
  expiration_date : option string
}.

(** Equality of two values that are strings or [undefined]. *)
Definition sameValue (a b : option string) : bool :=
  match a, b with
  | Some x, Some y => x =? y
  | None, None => true
  | _, _ => false
  end.

(** The elements of [xs] that are not in [seen], each at its first
    occurrence. *)
Fixpoint uniqueFrom (seen xs : list (option string)) : list (option string) :=
  match xs with
  | [] => []
  | x :: rest =>
      if existsb (sameValue x) seen then uniqueFrom seen rest
      else x :: uniqueFrom (x :: seen) rest
  end.

(** [[...new Set(xs)]]. *)
Definition unique (xs : list (option string)) : list (option string) :=
  uniqueFrom [] xs.

Section WithToLowerCase.

(** [s.toLowerCase()]. *)
Variable toLowerCase : string -> string.

Definition polygonContract (item : PolygonContract) : Result Contract :=
  match contract_type item with
  | None => Err "TypeError: Cannot read properties of undefined"
  | Some type =>
      Ok {| optionType := toLowerCase type;
            optionSymbol := ticker item;
            optionStrike := strike_price item;
            optionExpiration := expiration_date item;
            optionLastPrice := None;
            optionChange := None;
            optionVolume := None;
            optionOpenInterest := None;
            optionImpliedVolatility := None |}
  end.

(** The object that [getOptionsChainPolygon] returns for the payload
    [response.data.results]. *)
Definition polygonChainOf (symbol : string) (payload : option (list PolygonContract))
  : Result Chain :=
  bindResult (arrayOf payload) (fun results =>
  let expirationDates := unique (map expiration_date results) in
  bindResult (collect polygonContract results) (fun options =>
  Ok {| symbol := symbol;
        expirationDates := expirationDates;
        options := options;
        source := "polygon" |})).

End WithToLowerCase.

End Payloads.

(** ** The catalog of the providers route *)

Module Catalog.

Import Io.
Local Open Scope string_scope.

(** An element of the [providers] array that [GET /providers] sends. *)
Record ProviderInfo : Type := mkProviderInfo {
  providerId : string;
  providerName : string;
  providerDescription : string;
  providerWebsite : string;
  providerFeatures : list string
}.

Definition providers : list ProviderInfo :=
  [ {| providerId := "finnhub";
       providerName := "Finnhub";
       providerDescription := "Real-time RESTful APIs for global market data";
       providerWebsite := "https://finnhub.io/";
       providerFeatures :=
         ["Stock quotes"; "Company profiles"; "Historical data"; "Options chain"] |};
    {| providerId := "alphavantage";
       providerName := "Alpha Vantage";
       providerDescription := "Free APIs for realtime and historical stock data";
       providerWebsite := "https://www.alphavantage.co/";
       providerFeatures :=
         ["Stock quotes"; "Company profiles"; "Historical data"] |};
    {| providerId := "polygon";
       providerName := "Polygon.io";
       providerDescription := "Financial market data platform";
       providerWebsite := "https://polygon.io/";
       providerFeatures :=
         ["Stock quotes"; "Company profiles"; "Historical data"; "Options chain"] |} ].

(** The provider name of an adapter, the [source] of what it returns. *)
Definition adapterName (adapter : Adapter) : string :=
  match adapter with
  | Finnhub => "finnhub"
  | AlphaVantage => "alphavantage"
  | Polygon => "polygon"
  end.

(** The feature of the catalog that stands for an operation. *)
Definition featureOf (op : Operation) : string :=
  match op with
  | OpQuote => "Stock quotes"
  | OpProfile => "Company profiles"
  | OpHistorical => "Historical data"
  | OpOptions => "Options chain"
  end.

End Catalog.


(** * Properties *)

(** ** Comparisons of numbers *)

Section JsFacts.

Import Js.
Local Open Scope Q_scope.

Lemma ltb_lt (a b : Q) : ltb a b = true <-> a < b.
Proof.
  unfold ltb. rewrite negb_true_iff. split; intro H.
  - apply Qnot_le_lt. intro Hle. apply Qle_bool_iff in Hle. congruence.
  - destruct (Qle_bool b a) eqn:E; [|reflexivity].
    apply Qle_bool_iff in E. exfalso. apply (Qlt_not_le _ _ H E).
Qed.

Lemma eqb_eq (a b : Q) : eqb a b = true <-> a == b.
Proof. apply Qeq_bool_iff. Qed.

Lemma one_le_ofNat (n : nat) : (0 < n)%nat -> 1 <= ofNat n.
Proof.
  intro H. unfold ofNat. change 1 with (inject_Z 1).
  rewrite <- Zle_Qle. lia.
Qed.





End JsFacts.

(** ** Indicator engine *)

Section IndicatorFacts.

Import Js Indicators.
Local Open Scope Q_scope.

Example priceChanges_of_four : priceChanges [1; 3; 2; 5] = [2; -1; 3].
Proof. vm_compute. reflexivity. Qed.

Example calculateRSI_fifteen_closes :
  option_map Qred (calculateRSI Scenario.fifteenCloses 14) = Some (200 # 3).
Proof. vm_compute. reflexivity. Qed.

Example calculateRSI_fourteen_closes :
  calculateRSI (firstn 14 Scenario.fifteenCloses) 14 = None.
Proof. reflexivity. Qed.

Example calculateEMA_one_step :
  option_map Qred (calculateEMA (oneTo 4) 3) = Some 3.
Proof. vm_compute. reflexivity. Qed.

Example calculateIndicators_one_bar :
  calculateIndicators (Some (firstn 1 Scenario.fiftyBars)) =
  IndicatorObject None None None
    {| macdLine := Some 0; signalLine := None; histogram := None |}.
Proof. vm_compute. reflexivity. Qed.








Lemma calculateRSI_none (prices : list Q) (period : nat) :
  calculateRSI prices period = None <-> (length prices < period + 1)%nat.
Proof.
  unfold calculateRSI.
  destruct (length prices <? period + 1)%nat eqn:E.
  - apply Nat.ltb_lt in E. tauto.
  - apply Nat.ltb_ge in E.
    destruct (fold_left _ _ _) as [[g l] vs].
    split; [discriminate | lia].
Qed.


Lemma calculateEMA_none (prices : list Q) (period : nat) :
  calculateEMA prices period = None <-> (length prices < period)%nat.
Proof.
  unfold calculateEMA. destruct (length prices <? period)%nat eqn:E.
  - apply Nat.ltb_lt in E. tauto.
  - apply Nat.ltb_ge in E. split; [discriminate | lia].
Qed.

Lemma length_oneTo (n : nat) : length (oneTo n) = n.
Proof. unfold oneTo. rewrite length_map, length_seq. reflexivity. Qed.

(** On a list of exactly [period] samples the loop of [calculateEMA] does
    not run: the result is the seed, the simple average. *)
Lemma calculateEMA_exact_length (prices : list Q) :
  calculateEMA prices (length prices) = Some (mean prices).
Proof.
  unfold calculateEMA, mean. rewrite Nat.ltb_irrefl.
  rewrite firstn_all, skipn_all. reflexivity.
Qed.

Lemma sum_snoc (xs : list Q) (x : Q) : sum (xs ++ [x]) = sum xs + x.
Proof. unfold sum. rewrite fold_left_app. reflexivity. Qed.

Lemma ofNat_S (n : nat) : ofNat (S n) == ofNat n + 1.
Proof.
  unfold ofNat. rewrite Nat2Z.inj_succ, <- Z.add_1_r, inject_Z_plus. reflexivity.
Qed.

(** [1 + 2 + ... + n = n (n + 1) / 2]. *)
Lemma sum_oneTo (n : nat) : sum (oneTo n) * 2 == ofNat n * (ofNat n + 1).
Proof.
  induction n as [|n IH].
  - reflexivity.
  - unfold oneTo in *. rewrite seq_S, map_app. simpl map.
    rewrite sum_snoc. change (1 + n)%nat with (S n).
    rewrite ofNat_S. lra.
Qed.

(** The arithmetic mean of [1, ..., n] is [(n + 1) / 2]. *)
Lemma mean_oneTo (n : nat) : (0 < n)%nat -> mean (oneTo n) == (ofNat n + 1) / 2.
Proof.
  intro Hn. unfold mean. rewrite length_oneTo.
  pose proof (one_le_ofNat Hn) as H1. pose proof (sum_oneTo n) as Hs.
  field_simplify_eq; [lra | lra].
Qed.

(** C6.  [calculateEMA] returns [null] exactly on the lists of fewer
    than [period] samples; on the list [1, 2, ..., period] it returns the
    arithmetic mean of the whole list, the seed average. *)
Theorem calculateEMA_null_iff_short_and_seed_is_mean (prices : list Q) (period : nat) :
  (calculateEMA prices period = None <-> (length prices < period)%nat) /\
  calculateEMA (oneTo period) period = Some (mean (oneTo period)).
Proof.
  split.
  - apply calculateEMA_none.
  - pose proof (calculateEMA_exact_length (oneTo period)) as H.
    rewrite length_oneTo in H at 1. exact H.
Qed.

Lemma calculateEMA_null_iff_short_and_seed_is_mean_witness :
  calculateEMA [1; 2] 3 = None /\
  (length (oneTo 12) < 13)%nat /\
  calculateEMA (oneTo 12) 12 = Some (mean (oneTo 12)).
Proof.
  split; [|split].
  - apply (proj2 (proj1 (calculateEMA_null_iff_short_and_seed_is_mean [1; 2] 3))).
    simpl. lia.
  - apply (proj1 (proj1 (calculateEMA_null_iff_short_and_seed_is_mean (oneTo 12) 13))).
    reflexivity.
  - exact (proj2 (calculateEMA_null_iff_short_and_seed_is_mean [] 12)).
Defined.

(** *** MACD *)

Lemma calculateMACD_signal_histogram_null (prices : list Q) :
  signalLine (calculateMACD prices) = None /\
  histogram (calculateMACD prices) = None.
Proof. split; reflexivity. Qed.


(** The [-] operator turns a [null] average into 0: the MACD line is a
    number on every input. *)
Lemma calculateMACD_macdLine_number (prices : list Q) :
  macdLine (calculateMACD prices) =
  Some (toNumber (calculateEMA prices 12) - toNumber (calculateEMA prices 26)).
Proof. reflexivity. Qed.

(** C4.  On a series of one close both averages are [null], and the MACD
    line that [calculateMACD] returns is the number 0, not [null]; on the
    twelve closes [1, ..., 12] the long average is [null] and the MACD
    line is the short average, 13/2. *)
Theorem calculateMACD_short_series_macdLine_not_null :
  calculateEMA [150 # 1] 12 = None /\
  calculateEMA [150 # 1] 26 = None /\
  calculateMACD [150 # 1] =
    {| macdLine := Some 0; signalLine := None; histogram := None |} /\
  calculateEMA (oneTo 12) 26 = None /\
  calculateEMA (oneTo 12) 12 = Some (78 # 12) /\
  macdLine (calculateMACD (oneTo 12)) = Some (78 # 12).
Proof. repeat split; vm_compute; reflexivity. Qed.

(** *** calculateIndicators *)

Lemma calculateRSI_some (prices : list Q) (period : nat) :
  (period + 1 <= length prices)%nat -> exists r, calculateRSI prices period = Some r.
Proof.
  intro H. destruct (calculateRSI prices period) as [r|] eqn:E.
  - exists r. reflexivity.
  - apply calculateRSI_none in E. lia.
Qed.

Lemma calculateEMA_some (prices : list Q) (period : nat) :
  (period <= length prices)%nat -> exists e, calculateEMA prices period = Some e.
Proof.
  intro H. destruct (calculateEMA prices period) as [e|] eqn:E.
  - exists e. reflexivity.
  - apply calculateEMA_none in E. lia.
Qed.

(** C7.  [calculateIndicators] returns the empty object exactly on an
    absent or empty series; on a series that is not empty it returns the
    four fields, computed from the closes with the periods 14, 12 and 26;
    on a series of 50 bars the RSI, both averages and the MACD line are
    numbers, the signal line and the histogram are [null]. *)
Theorem calculateIndicators_empty_iff_and_fields (prices : option (list (Bar Q))) :
  (calculateIndicators prices = EmptyObject <-> prices = None \/ prices = Some []) /\
  (forall bars : list (Bar Q),
      prices = Some bars -> bars <> [] ->
      let closes := map (@close Q) bars in
      calculateIndicators prices =
      IndicatorObject (calculateRSI closes 14) (calculateEMA closes 12)
                      (calculateEMA closes 26) (calculateMACD closes)) /\
  (forall bars : list (Bar Q),
      prices = Some bars -> length bars = 50%nat ->
      exists rsi emaShort emaLong line : Q,
        calculateIndicators prices =
        IndicatorObject (Some rsi) (Some emaShort) (Some emaLong)
          {| macdLine := Some line; signalLine := None; histogram := None |}).
Proof.
  split; [|split].
  - destruct prices as [[|b bs]|]; simpl; split; intro H; auto.
    + discriminate.
    + destruct H as [H|H]; discriminate.
  - intros bars -> Hne. destruct bars as [|b bs]; [congruence|]. reflexivity.
  - intros bars -> Hlen.
    destruct bars as [|b bs]; [discriminate|].
    unfold calculateIndicators.
    change (length (b :: bs) =? 0)%nat with false. cbv iota zeta.
    set (closes := map (@close Q) (b :: bs)).
    assert (Hc : length closes = 50%nat).
    { subst closes. rewrite length_map. exact Hlen. }
    destruct (@calculateRSI_some closes 14) as [r Hr]; [lia|].
    destruct (@calculateEMA_some closes 12) as [e12 He12]; [lia|].
    destruct (@calculateEMA_some closes 26) as [e26 He26]; [lia|].
    exists r, e12, e26, (e12 - e26).
    rewrite Hr, He12, He26. unfold calculateMACD. rewrite He12, He26.
    reflexivity.
Qed.

Lemma calculateIndicators_empty_iff_and_fields_witness :
  calculateIndicators (Some []) = EmptyObject /\
  exists rsi emaShort emaLong line : Q,
    calculateIndicators (Some Scenario.fiftyBars) =
    IndicatorObject (Some rsi) (Some emaShort) (Some emaLong)
      {| macdLine := Some line; signalLine := None; histogram := None |}.
Proof.
  split.
  - apply (proj2 (proj1 (calculateIndicators_empty_iff_and_fields (Some [])))).
    right. reflexivity.
  - apply (proj2 (proj2 (calculateIndicators_empty_iff_and_fields
                           (Some Scenario.fiftyBars))) Scenario.fiftyBars).
    + reflexivity.
    + reflexivity.
Defined.

End IndicatorFacts.

(** ** The RSI in double precision and in exact arithmetic *)

Section RsiFacts.

Import PrimFloat.

Example calculateRSI_fifteen_closes_double :
  Ieee.calculateRSI Ieee.fifteenCloses 14 = Some 0x1.0aaaaaaaaaaaap+6%float.
Proof. vm_compute. reflexivity. Qed.





(** In double precision the RSI of a series that never rises is not
    always 0: with the period 1, a fall from 1e308 to -1e308 overflows,
    the average loss becomes infinite, and its product with
    [period - 1 = 0] is [NaN]. *)
#[warnings="-inexact-float"]
Example calculateRSI_never_rising_overflow :
  Ieee.calculateRSI [1e308; -1e308; -1e308]%float 1 = Some nan /\
  Ieee.calculateRSI [1e308; -1e308; -1e308; -1e308]%float 2 = Some 0%float.
Proof. split; vm_compute; reflexivity. Qed.

End RsiFacts.

(** ** Fallback router *)

Section RouterFacts.

Import Io Entities MarketDataService Router.
Local Open Scope string_scope.

#[local] Arguments String.eqb : simpl never.

Lemma alternate_differs (primary : string) : (alternate primary =? primary) = false.
Proof.
  unfold alternate. destruct (String.eqb_spec primary "finnhub") as [->|Hne].
  - reflexivity.
  - apply String.eqb_neq. congruence.
Qed.

Lemma callOf_resolved (req : Request) (provider : string) :
  callOf (resolved req) provider = callOf req provider.
Proof. destruct req; reflexivity. Qed.

Lemma adapterCall_resolved up parseDate (req : Request) (provider : string) :
  adapterCall up parseDate (resolved req) provider = adapterCall up parseDate req provider.
Proof. destruct req; reflexivity. Qed.

Lemma fallbackOf_resolved (svc : Service) (req : Request) (provider : string) :
  fallbackOf svc (resolved req) provider = fallbackOf svc req provider.
Proof. destruct req; reflexivity. Qed.

Lemma resolved_idem (req : Request) : resolved (resolved req) = resolved req.
Proof. destruct req; reflexivity. Qed.

(** Unfolding the monad in a goal or a hypothesis. *)
Ltac io_unfold :=
  unfold mapIO, bind, tryCatch, ret, throw, liftResult, httpGet in *.

(** Every branch of every [switch] sends exactly one call, to the adapter
    of the provider. *)
Lemma adapterCall_one_call up parseDate (req : Request) (provider : string)
  (log : list Call) :
  exists outcome,
    adapterCall up parseDate req provider log =
    Some (outcome, (log ++ [callOf req provider])%list).
Proof.
  destruct req as [symbol|symbol|symbol interval from to|symbol];
    unfold adapterCall, callOf, adapterOf; simpl.
  - unfold switchQuote, getQuoteFinnhub, getQuoteAlphaVantage, getQuotePolygon.
    destruct (provider =? "finnhub"); [|destruct (provider =? "alphavantage");
      [|destruct (provider =? "polygon")]];
      io_unfold;
      match goal with |- context [quoteOf up ?a ?n] => destruct (quoteOf up a n) end;
      eexists; reflexivity.
  - unfold switchProfile, getCompanyProfileFinnhub, getCompanyProfileAlphaVantage,
      getCompanyProfilePolygon.
    destruct (provider =? "finnhub"); [|destruct (provider =? "alphavantage");
      [|destruct (provider =? "polygon")]];
      io_unfold;
      match goal with |- context [profileOf up ?a ?n] => destruct (profileOf up a n) end;
      eexists; reflexivity.
  - assert (HF : exists outcome,
               mapIO SeriesResponse
                 (getHistoricalDataFinnhub up symbol (defaultArg interval "1d")) log =
               Some (outcome, (log ++ [mkCall OpHistorical Finnhub symbol])%list)).
    { unfold getHistoricalDataFinnhub. io_unfold.
      destruct (finnhubCandles up (length log)) as [candles|e];
        [|eexists; reflexivity].
      destruct (arrayOf (candleT candles)) as [t|e]; [|eexists; reflexivity].
      destruct (collect (finnhubBar candles) (indexed t)); eexists; reflexivity. }
    unfold switchHistorical.
    destruct (provider =? "finnhub"); [exact HF|].
    destruct (provider =? "alphavantage").
    { unfold getHistoricalDataAlphaVantage. io_unfold.
      destruct (alphaVantageData up (length log)) as [response|e];
        [|eexists; reflexivity].
      destruct (alphaVantageBars _ _ _ _); eexists; reflexivity. }
    destruct (provider =? "polygon"); [|exact HF].
    unfold getHistoricalDataPolygon. io_unfold.
    destruct (polygonResults up (length log)) as [results|e];
      [|eexists; reflexivity].
    destruct (arrayOf results) as [items|e]; [|eexists; reflexivity].
    destruct (collect polygonBar items); eexists; reflexivity.
  - unfold switchOptions, getOptionsChainFinnhub, getOptionsChainPolygon.
    destruct (provider =? "finnhub") eqn:E1.
    + apply String.eqb_eq in E1. subst provider. simpl.
      io_unfold. destruct (optionsOf up Finnhub (length log)); eexists; reflexivity.
    + destruct (provider =? "polygon");
        io_unfold;
        match goal with |- context [optionsOf up ?a ?n] => destruct (optionsOf up a n) end;
        eexists; reflexivity.
Qed.

(** One round of a service method: the [switch], then the [catch] block. *)
Lemma serve_step up parseDate (fuel : nat) (svc : Service) (req : Request)
  (provider : option string) (log : list Call) :
  serve up parseDate (S fuel) svc req provider log =
  let p := defaultArg provider (defaultProvider svc) in
  match adapterCall up parseDate req p log with
  | None => None
  | Some (Ok a, log') => Some (Ok a, log')
  | Some (Err e, log') =>
      match fallbackOf svc req p with
      | Some fallbackProvider =>
          serve up parseDate fuel svc (resolved req) (Some fallbackProvider) log'
      | None => Some (Err e, log')
      end
  end.
Proof.
  destruct req as [symbol|symbol|symbol interval from to|symbol];
    unfold serve, adapterCall, fallbackOf; simpl; io_unfold.
  - destruct (switchQuote up _ symbol log) as [[[a|e] log']|]; try reflexivity.
    destruct (_ =? defaultProvider svc); reflexivity.
  - destruct (switchProfile up _ symbol log) as [[[a|e] log']|]; try reflexivity.
    destruct (_ =? defaultProvider svc); reflexivity.
  - destruct (switchHistorical up parseDate _ symbol _ from to log)
      as [[[a|e] log']|]; try reflexivity.
    destruct (_ =? defaultProvider svc); reflexivity.
  - destruct (switchOptions up _ symbol log) as [[[a|e] log']|]; try reflexivity.
    destruct ((_ =? defaultProvider svc) && _); reflexivity.
Qed.

(** A provider that the [catch] block retries with is never retried
    itself. *)
Lemma fallbackOf_fallback (svc : Service) (req : Request) (provider fb : string) :
  fallbackOf svc req provider = Some fb -> fallbackOf svc req fb = None.
Proof.
  unfold fallbackOf. destruct (isOptions req).
  - destruct (String.eqb_spec provider (defaultProvider svc)) as [->|]; simpl;
      [|discriminate].
    destruct (defaultProvider svc =? "polygon") eqn:E; simpl; [discriminate|].
    intro H. injection H as <-.
    rewrite String.eqb_sym, E. reflexivity.
  - destruct (String.eqb_spec provider (defaultProvider svc)) as [->|];
      [|discriminate].
    intro H. injection H as <-.
    pose proof (alternate_differs (defaultProvider svc)) as Hd.
    unfold alternate in Hd. rewrite Hd. reflexivity.
Qed.

(** Every method returns with fuel 2, after one call or two. *)
Lemma serve_returns up parseDate (svc : Service) (req : Request)
  (provider : option string) (fuel : nat) :
  exists outcome log,
    serve up parseDate (S (S fuel)) svc req provider [] = Some (outcome, log) /\
    (1 <= length log <= 2)%nat.
Proof.
  rewrite serve_step. cbv zeta.
  set (p := defaultArg provider (defaultProvider svc)).
  destruct (adapterCall_one_call up parseDate req p []) as [o1 H1].
  rewrite H1. simpl app.
  destruct o1 as [a|e]; [exists (Ok a); eexists; split; [reflexivity|simpl; lia]|].
  destruct (fallbackOf svc req p) as [fb|] eqn:Hfb;
    [|exists (Err e); eexists; split; [reflexivity|simpl; lia]].
  rewrite serve_step. cbv zeta. simpl defaultArg.
  destruct (adapterCall_one_call up parseDate (resolved req) fb [callOf req p])
    as [o2 H2].
  rewrite H2. simpl app.
  destruct o2 as [a|e2]; [exists (Ok a); eexists; split; [reflexivity|simpl; lia]|].
  rewrite fallbackOf_resolved, (fallbackOf_fallback _ _ _ Hfb).
  exists (Err e2). eexists. split; [reflexivity|simpl; lia].
Qed.

(** C1.  When the provider of a quote, profile or historical request is
    the default provider and its adapter call fails, the method returns
    (with any fuel of at least 2) what one call to the adapter of the
    alternate provider returns, a result or an error, and the request has
    sent exactly two calls: the failed one and that one. *)
Theorem default_provider_failure_one_fallback
  up parseDate (svc : Service) (req : Request) (provider : option string)
  (e : Error) (log1 : list Call) (fuel : nat) :
  isOptions req = false ->
  defaultArg provider (defaultProvider svc) = defaultProvider svc ->
  adapterCall up parseDate req (defaultProvider svc) [] = Some (Err e, log1) ->
  let primary := defaultProvider svc in
  let calls := [callOf req primary; callOf req (alternate primary)] in
  exists outcome,
    log1 = [callOf req primary] /\
    adapterCall up parseDate req (alternate primary) log1 = Some (outcome, calls) /\
    serve up parseDate (S (S fuel)) svc req provider [] = Some (outcome, calls).
Proof.
  intros Hop Hsel Hfail primary calls.
  destruct (adapterCall_one_call up parseDate req primary []) as [o1 H1].
  fold primary in Hfail. rewrite Hfail in H1. injection H1 as _ Hlog1. simpl in Hlog1.
  destruct (adapterCall_one_call up parseDate req (alternate primary) log1)
    as [outcome H2].
  rewrite Hlog1 in H2 at 2. simpl in H2.
  exists outcome. split; [exact Hlog1|]. split; [exact H2|].
  rewrite serve_step. cbv zeta. rewrite Hsel. fold primary. rewrite Hfail.
  assert (Hfb : fallbackOf svc req primary = Some (alternate primary)).
  { unfold fallbackOf. rewrite Hop. subst primary. rewrite String.eqb_refl.
    reflexivity. }
  rewrite Hfb, serve_step. cbv zeta. simpl defaultArg.
  rewrite adapterCall_resolved, H2.
  destruct outcome as [a|e2]; [reflexivity|].
  rewrite fallbackOf_resolved. unfold fallbackOf. rewrite Hop.
  fold primary. rewrite alternate_differs. reflexivity.
Qed.

Lemma default_provider_failure_one_fallback_witness :
  let req := QuoteRequest "AAPL" in
  adapterCall Scenario.finnhubDown Scenario.parseDate req "finnhub" [] =
    Some (Err "timeout of 10000ms exceeded", [callOf req "finnhub"]) /\
  exists outcome,
    [callOf req "finnhub"] = [callOf req "finnhub"] /\
    adapterCall Scenario.finnhubDown Scenario.parseDate req "alphavantage"
                [callOf req "finnhub"] =
      Some (outcome, [callOf req "finnhub"; callOf req "alphavantage"]) /\
    serve Scenario.finnhubDown Scenario.parseDate 2 Scenario.finnhubService
          req None [] =
      Some (outcome, [callOf req "finnhub"; callOf req "alphavantage"]).
Proof.
  split; [reflexivity|].
  apply (@default_provider_failure_one_fallback
           Scenario.finnhubDown Scenario.parseDate Scenario.finnhubService
           (QuoteRequest "AAPL") None "timeout of 10000ms exceeded"
           [callOf (QuoteRequest "AAPL") "finnhub"] 0%nat);
    reflexivity.
Defined.

(** C2, as stated, fails: the default provider is [finnhub], the caller
    pins [finnhub], Finnhub does not answer; the method does not throw
    Finnhub's error after one call but calls Alpha Vantage and returns its
    quote. *)
Lemma pinned_default_provider_falls_back :
  let req := QuoteRequest "AAPL" in
  adapterCall Scenario.finnhubDown Scenario.parseDate req "finnhub" [] =
    Some (Err "timeout of 10000ms exceeded", [callOf req "finnhub"]) /\
  serve Scenario.finnhubDown Scenario.parseDate 2 Scenario.finnhubService
        req (Some "finnhub") [] =
    Some (Ok (QuoteResponse Scenario.alphaVantageQuote),
          [callOf req "finnhub"; callOf req "alphavantage"]) /\
  serve Scenario.finnhubDown Scenario.parseDate 2 Scenario.finnhubService
        req (Some "finnhub") [] <>
    Some (Err "timeout of 10000ms exceeded", [callOf req "finnhub"]).
Proof.
  split; [reflexivity|]. split; [reflexivity|]. discriminate.
Qed.

(** C2, amended.  When the caller pins a provider other than the default
    one and its adapter call fails, the method throws the error of that
    call, and that call is the only one of the request. *)
Theorem pinned_other_provider_failure_propagates
  up parseDate (svc : Service) (req : Request) (pinned : string)
  (e : Error) (log1 : list Call) (fuel : nat) :
  pinned <> defaultProvider svc ->
  adapterCall up parseDate req pinned [] = Some (Err e, log1) ->
  serve up parseDate (S fuel) svc req (Some pinned) [] =
  Some (Err e, [callOf req pinned]).
Proof.
  intros Hne Hfail.
  destruct (adapterCall_one_call up parseDate req pinned []) as [o1 H1].
  rewrite Hfail in H1. injection H1 as _ Hlog1. simpl in Hlog1.
  rewrite serve_step. cbv zeta. simpl defaultArg. rewrite Hfail.
  apply String.eqb_neq in Hne.
  unfold fallbackOf. rewrite Hne. simpl.
  destruct (isOptions req); rewrite Hlog1; reflexivity.
Qed.

Lemma pinned_other_provider_failure_propagates_witness :
  let req := ProfileRequest "AAPL" in
  "finnhub" <> defaultProvider Scenario.alphaVantageService /\
  adapterCall Scenario.finnhubDown Scenario.parseDate req "finnhub" [] =
    Some (Err "timeout of 10000ms exceeded", [callOf req "finnhub"]) /\
  serve Scenario.finnhubDown Scenario.parseDate 1 Scenario.alphaVantageService
        req (Some "finnhub") [] =
    Some (Err "timeout of 10000ms exceeded", [callOf req "finnhub"]).
Proof.
  split; [discriminate|]. split; [reflexivity|].
  apply (@pinned_other_provider_failure_propagates
           Scenario.finnhubDown Scenario.parseDate Scenario.alphaVantageService
           (ProfileRequest "AAPL") "finnhub" "timeout of 10000ms exceeded"
           [callOf (ProfileRequest "AAPL") "finnhub"] 0%nat).
  - discriminate.
  - reflexivity.
Defined.

(** *** Option chains *)

Lemma getOptionsChain_serve up parseDate (fuel : nat) (svc : Service)
  (symbol : string) (provider : option string) (log : list Call) (log' : list Call)
  (outcome : Result OptionsChain) :
  serve up parseDate fuel svc (OptionsRequest symbol) provider log =
    Some (match outcome with Ok c => Ok (ChainResponse c) | Err e => Err e end, log') ->
  getOptionsChain up fuel svc symbol provider log = Some (outcome, log').
Proof.
  unfold serve. io_unfold.
  destruct (getOptionsChain up fuel svc symbol provider log) as [[[c|e] l]|];
    destruct outcome; intro H; try discriminate; congruence.
Qed.

Lemma switchOptions_call up (provider symbol : string) (log : list Call) :
  switchOptions up provider symbol log =
  let adapter := if provider =? "polygon" then Polygon else Finnhub in
  Some (optionsOf up adapter (length log),
        (log ++ [mkCall OpOptions adapter symbol])%list).
Proof.
  unfold switchOptions, getOptionsChainFinnhub, getOptionsChainPolygon, httpGet.
  destruct (String.eqb_spec provider "finnhub") as [->|Hne]; [reflexivity|].
  destruct (provider =? "polygon"); reflexivity.
Qed.

(** C8.  When the provider of an options-chain request is the default
    provider, is not [polygon], and its adapter call fails, the method
    returns (with any fuel of at least 2) what one call to the Polygon
    adapter returns, and the request has sent exactly two calls, the
    second one to Polygon. *)
Theorem options_default_failure_falls_back_to_polygon
  up (svc : Service) (symbol : string) (provider : option string)
  (e : Error) (log1 : list Call) (fuel : nat) :
  defaultArg provider (defaultProvider svc) = defaultProvider svc ->
  defaultProvider svc <> "polygon" ->
  switchOptions up (defaultProvider svc) symbol [] = Some (Err e, log1) ->
  log1 = [mkCall OpOptions Finnhub symbol] /\
  getOptionsChainPolygon up symbol log1 =
    Some (optionsOf up Polygon 1,
          [mkCall OpOptions Finnhub symbol; mkCall OpOptions Polygon symbol]) /\
  getOptionsChain up (S (S fuel)) svc symbol provider [] =
    Some (optionsOf up Polygon 1,
          [mkCall OpOptions Finnhub symbol; mkCall OpOptions Polygon symbol]).
Proof.
  intros Hsel Hne Hfail.
  assert (Hpoly : (defaultProvider svc =? "polygon") = false)
    by (apply String.eqb_neq; exact Hne).
  pose proof Hfail as Hcall. rewrite switchOptions_call in Hcall.
  cbv zeta in Hcall. rewrite Hpoly in Hcall. simpl in Hcall.
  injection Hcall as Hans Hlog1. subst log1.
  split; [reflexivity|]. split; [reflexivity|].
  simpl. rewrite Hsel. unfold tryCatch at 1. rewrite Hfail.
  rewrite String.eqb_refl, Hpoly. simpl.
  unfold tryCatch. rewrite switchOptions_call. simpl.
  destruct (optionsOf up Polygon 1) as [c|e2]; [reflexivity|].
  rewrite String.eqb_sym, Hpoly. reflexivity.
Qed.

Lemma options_default_failure_falls_back_to_polygon_witness :
  defaultProvider Scenario.finnhubService <> "polygon" /\
  switchOptions Scenario.finnhubDown "finnhub" "AAPL" [] =
    Some (Err "timeout of 10000ms exceeded", [mkCall OpOptions Finnhub "AAPL"]) /\
  getOptionsChain Scenario.finnhubDown 2 Scenario.finnhubService "AAPL" None [] =
    Some (Ok Scenario.polygonChain,
          [mkCall OpOptions Finnhub "AAPL"; mkCall OpOptions Polygon "AAPL"]).
Proof.
  split; [discriminate|]. split; [reflexivity|].
  apply (@options_default_failure_falls_back_to_polygon
           Scenario.finnhubDown Scenario.finnhubService "AAPL" None
           "timeout of 10000ms exceeded" [mkCall OpOptions Finnhub "AAPL"] 0%nat).
  - reflexivity.
  - discriminate.
  - reflexivity.
Defined.

(** C9, as stated, fails: the caller pins [alphavantage], which has no
    options operation; the method throws no error, it calls Finnhub and
    returns the chain that Finnhub sent. *)
Lemma options_pinned_alphavantage_served_by_finnhub :
  getOptionsChain Scenario.allUp 2 Scenario.finnhubService "AAPL"
                  (Some "alphavantage") [] =
    Some (Ok Scenario.finnhubChain, [mkCall OpOptions Finnhub "AAPL"]) /\
  chainSource Scenario.finnhubChain = "finnhub" /\
  forall e log,
    getOptionsChain Scenario.allUp 2 Scenario.finnhubService "AAPL"
                    (Some "alphavantage") [] <> Some (Err e, log).
Proof.
  split; [reflexivity|]. split; [reflexivity|]. intros e log. discriminate.
Qed.

(** C9, amended.  An options-chain request that pins [alphavantage] takes
    the [default:] branch of the [switch] and is sent to Finnhub.  A chain
    that Finnhub returns is the result, with no other call.  When the
    Finnhub call fails its error is thrown with no other call, unless
    [alphavantage] is the default provider: then one more call goes to
    Polygon and its outcome is returned. *)
Theorem options_pinned_alphavantage_dispatch
  up (svc : Service) (symbol : string) (fuel : nat) :
  (forall chain : OptionsChain,
      optionsOf up Finnhub 0 = Ok chain ->
      getOptionsChain up (S fuel) svc symbol (Some "alphavantage") [] =
      Some (Ok chain, [mkCall OpOptions Finnhub symbol])) /\
  (forall e : Error,
      optionsOf up Finnhub 0 = Err e ->
      defaultProvider svc <> "alphavantage" ->
      getOptionsChain up (S fuel) svc symbol (Some "alphavantage") [] =
      Some (Err e, [mkCall OpOptions Finnhub symbol])) /\
  (forall e : Error,
      optionsOf up Finnhub 0 = Err e ->
      defaultProvider svc = "alphavantage" ->
      getOptionsChain up (S (S fuel)) svc symbol (Some "alphavantage") [] =
      Some (optionsOf up Polygon 1,
            [mkCall OpOptions Finnhub symbol; mkCall OpOptions Polygon symbol])).
Proof.
  split; [|split].
  - intros chain Hok. simpl. unfold tryCatch. rewrite switchOptions_call.
    simpl. rewrite Hok. reflexivity.
  - intros e Herr Hne. simpl. unfold tryCatch. rewrite switchOptions_call.
    simpl. rewrite Herr.
    assert (H : ("alphavantage" =? defaultProvider svc) = false).
    { apply String.eqb_neq. congruence. }
    rewrite H. reflexivity.
  - intros e Herr Hd. simpl. unfold tryCatch at 1. rewrite switchOptions_call.
    simpl. rewrite Herr, Hd. simpl.
    unfold tryCatch. rewrite switchOptions_call. simpl.
    destruct (optionsOf up Polygon 1); reflexivity.
Qed.

Lemma options_pinned_alphavantage_dispatch_witness :
  (optionsOf Scenario.allUp Finnhub 0 = Ok Scenario.finnhubChain /\
   getOptionsChain Scenario.allUp 1 Scenario.finnhubService "AAPL"
                   (Some "alphavantage") [] =
   Some (Ok Scenario.finnhubChain, [mkCall OpOptions Finnhub "AAPL"])) /\
  (optionsOf Scenario.finnhubDown Finnhub 0 = Err "timeout of 10000ms exceeded" /\
   defaultProvider Scenario.finnhubService <> "alphavantage" /\
   getOptionsChain Scenario.finnhubDown 1 Scenario.finnhubService "AAPL"
                   (Some "alphavantage") [] =
   Some (Err "timeout of 10000ms exceeded", [mkCall OpOptions Finnhub "AAPL"])) /\
  (defaultProvider Scenario.alphaVantageService = "alphavantage" /\
   getOptionsChain Scenario.finnhubDown 2 Scenario.alphaVantageService "AAPL"
                   (Some "alphavantage") [] =
   Some (optionsOf Scenario.finnhubDown Polygon 1,
         [mkCall OpOptions Finnhub "AAPL"; mkCall OpOptions Polygon "AAPL"])).
Proof.
  split; [|split].
  - split; [reflexivity|].
    apply (proj1 (options_pinned_alphavantage_dispatch
                    Scenario.allUp Scenario.finnhubService "AAPL" 0)).
    reflexivity.
  - split; [reflexivity|]. split; [discriminate|].
    apply (proj1 (proj2 (options_pinned_alphavantage_dispatch
                           Scenario.finnhubDown Scenario.finnhubService "AAPL" 0))).
    + reflexivity.
    + discriminate.
  - split; [reflexivity|].
    apply (proj2 (proj2 (options_pinned_alphavantage_dispatch
                           Scenario.finnhubDown Scenario.alphaVantageService
                           "AAPL" 0)) "timeout of 10000ms exceeded").
    + reflexivity.
    + reflexivity.
Defined.

(** *** The default provider *)

(** C10.  [setDefaultProvider] succeeds and stores the provider when it
    is one of [finnhub], [alphavantage], [polygon]; on any other string it
    throws and leaves the service as it was. *)
Theorem setDefaultProvider_valid_or_unchanged (svc : Service) (provider : string) :
  (In provider ["finnhub"; "alphavantage"; "polygon"] ->
   setDefaultProvider svc provider = (Ok tt, {| defaultProvider := provider |})) /\
  (~ In provider ["finnhub"; "alphavantage"; "polygon"] ->
   exists e : Error, setDefaultProvider svc provider = (Err e, svc)).
Proof.
  unfold setDefaultProvider. split.
  - intros [<-|[<-|[<-|[]]]]; reflexivity.
  - intro Hnot.
    destruct (existsb (String.eqb provider) ["finnhub"; "alphavantage"; "polygon"])
      eqn:E.
    + exfalso. apply Hnot. apply existsb_exists in E.
      destruct E as (x & Hin & Heq). apply String.eqb_eq in Heq. subst x.
      exact Hin.
    + eexists. reflexivity.
Qed.

Lemma setDefaultProvider_valid_or_unchanged_witness :
  setDefaultProvider Scenario.finnhubService "polygon" =
    (Ok tt, {| defaultProvider := "polygon" |}) /\
  exists e : Error,
    setDefaultProvider Scenario.finnhubService "yahoo" =
    (Err e, Scenario.finnhubService).
Proof.
  split.
  - apply (proj1 (setDefaultProvider_valid_or_unchanged
                    Scenario.finnhubService "polygon")).
    simpl. tauto.
  - apply (proj2 (setDefaultProvider_valid_or_unchanged
                    Scenario.finnhubService "yahoo")).
    simpl. intros [H|[H|[H|[]]]]; discriminate.
Defined.

End RouterFacts.

(** ** Historical data *)

Section HistoricalFacts.

Import Io Entities MarketDataService Router.
Local Open Scope Z_scope.

#[local] Arguments String.eqb : simpl never.

Lemma map_snd_indexed_from {A : Type} (xs : list A) :
  forall start : nat, map snd (combine (seq start (length xs)) xs) = xs.
Proof.
  induction xs as [|x xs IH]; intro start; simpl.
  - reflexivity.
  - rewrite IH. reflexivity.
Qed.

Lemma map_snd_indexed {A : Type} (xs : list A) : map snd (indexed xs) = xs.
Proof. apply map_snd_indexed_from. Qed.

Lemma toISOString_ok (ms ts : Z) : toISOString ms = Ok ts -> ts = ms.
Proof.
  unfold toISOString. destruct (Z.abs ms <=? 8640000000000000); congruence.
Qed.

Lemma finnhubBar_timestamp (candles : FinnhubCandles) (entry : nat * Z)
  (bar : Bar (option Q)) :
  finnhubBar candles entry = Ok bar -> timestamp bar = snd entry * 1000.
Proof.
  destruct entry as [i t]. unfold finnhubBar, bindResult.
  destruct (toISOString (t * 1000)) as [ts|] eqn:Ets; [|discriminate].
  apply toISOString_ok in Ets.
  destruct (arrayOf (candleO candles)); [|discriminate].
  destruct (arrayOf (candleH candles)); [|discriminate].
  destruct (arrayOf (candleL candles)); [|discriminate].
  destruct (arrayOf (candleC candles)); [|discriminate].
  destruct (arrayOf (candleV candles)); [|discriminate].
  intro H. injection H as <-. simpl. exact Ets.
Qed.

Lemma collect_map {A B C : Type} (f : A -> Result B) (g : B -> C) (h : A -> C) :
  (forall a b, f a = Ok b -> g b = h a) ->
  forall (xs : list A) (ys : list B),
    collect f xs = Ok ys -> map g ys = map h xs.
Proof.
  intros Hfg. induction xs as [|x xs IH]; intros ys; simpl.
  - intro H. injection H as <-. reflexivity.
  - unfold bindResult.
    destruct (f x) as [b|] eqn:Eb; [|discriminate].
    destruct (collect f xs) as [bs|]; [|discriminate].
    intro H. injection H as <-. simpl.
    rewrite (Hfg _ _ Eb), (IH bs eq_refl). reflexivity.
Qed.

(** The Finnhub adapter keeps the bars in the order of the upstream
    array [t]. *)
Lemma getHistoricalDataFinnhub_upstream_order up (symbol interval : string)
  (log log' : list Call) (series : PriceSeries) :
  getHistoricalDataFinnhub up symbol interval log = Some (Ok series, log') ->
  exists candles t,
    finnhubCandles up (length log) = Ok candles /\
    candleT candles = Some t /\
    map (@timestamp (option Q)) (data series) = map (fun s => s * 1000) t.
Proof.
  unfold getHistoricalDataFinnhub, bind, httpGet, liftResult, ret.
  destruct (finnhubCandles up (length log)) as [candles|]; [|discriminate].
  destruct (candleT candles) as [t|] eqn:Et; simpl; [|discriminate].
  destruct (collect (finnhubBar candles) (indexed t)) as [bars|] eqn:Ec;
    [|discriminate].
  intro H. injection H as <- _. simpl.
  exists candles, t. repeat split; try assumption.
  rewrite (collect_map (finnhubBar candles) (@timestamp (option Q))
             (fun entry => snd entry * 1000)
             (@finnhubBar_timestamp candles) _ Ec).
  rewrite <- (map_snd_indexed t) at 2. rewrite map_map. reflexivity.
Qed.

(** The Polygon adapter keeps the bars in the order of the upstream
    array [results]. *)
Lemma getHistoricalDataPolygon_upstream_order up (symbol interval : string)
  (log log' : list Call) (series : PriceSeries) :
  getHistoricalDataPolygon up symbol interval log = Some (Ok series, log') ->
  exists results,
    polygonResults up (length log) = Ok (Some results) /\
    map (@timestamp (option Q)) (data series) = map aggT results.
Proof.
  unfold getHistoricalDataPolygon, bind, httpGet, liftResult, ret.
  destruct (polygonResults up (length log)) as [[results|]|]; simpl;
    try discriminate.
  destruct (collect polygonBar results) as [bars|] eqn:Ec; [|discriminate].
  intro H. injection H as <- _. simpl.
  exists results. split; [reflexivity|].
  apply (collect_map polygonBar (@timestamp (option Q)) aggT); [|exact Ec].
  intros item bar. unfold polygonBar, bindResult.
  destruct (toISOString (aggT item)) as [ts|] eqn:Ets; [|discriminate].
  apply toISOString_ok in Ets. intro H. injection H as <-. exact Ets.
Qed.

(** *** The sort of the Alpha Vantage adapter *)

Lemma insertBar_perm {V : Type} (x : Bar V) (sorted : list (Bar V)) :
  Permutation (x :: sorted) (insertBar x sorted).
Proof.
  induction sorted as [|y rest IH]; simpl.
  - apply Permutation_refl.
  - destruct (compareBars x y <=? 0).
    + apply Permutation_refl.
    + apply perm_trans with (y :: x :: rest); [apply perm_swap|].
      apply perm_skip. exact IH.
Qed.

Lemma sortBars_perm {V : Type} (bars : list (Bar V)) :
  Permutation bars (sortBars bars).
Proof.
  induction bars as [|x bars IH]; simpl.
  - apply Permutation_refl.
  - apply perm_trans with (x :: sortBars bars).
    + apply perm_skip. exact IH.
    + apply insertBar_perm.
Qed.

Lemma insertBar_sorted {V : Type} (x : Bar V) (sorted : list (Bar V)) :
  StronglySorted Z.le (map (@timestamp V) sorted) ->
  StronglySorted Z.le (map (@timestamp V) (insertBar x sorted)).
Proof.
  induction sorted as [|y rest IH]; simpl; intro Hs.
  - constructor; constructor.
  - apply StronglySorted_inv in Hs. destruct Hs as [Hrest Hy].
    unfold compareBars. destruct (Z.leb_spec (timestamp x - timestamp y) 0) as [Hle|Hgt].
    + simpl. constructor.
      * constructor; assumption.
      * constructor; [lia|].
        eapply Forall_impl; [|exact Hy]. intros z Hz. simpl in Hz. lia.
    + simpl. constructor.
      * apply IH. exact Hrest.
      * apply Forall_map.
        eapply Permutation_Forall; [apply insertBar_perm|].
        constructor; [lia|]. apply Forall_map. exact Hy.
Qed.

Lemma sortBars_sorted {V : Type} (bars : list (Bar V)) :
  StronglySorted Z.le (map (@timestamp V) (sortBars bars)).
Proof.
  induction bars as [|x bars IH]; simpl.
  - constructor.
  - apply insertBar_sorted. exact IH.
Qed.

(** The Alpha Vantage adapter returns its bars in ascending order of
    timestamp, whatever the order of the upstream object. *)
Lemma getHistoricalDataAlphaVantage_ascending up parseDate
  (symbol interval from to : string) (log log' : list Call) (series : PriceSeries) :
  getHistoricalDataAlphaVantage up parseDate symbol interval from to log =
    Some (Ok series, log') ->
  Ascending (data series).
Proof.
  unfold getHistoricalDataAlphaVantage, bind, httpGet, liftResult, ret.
  destruct (alphaVantageData up (length log)) as [response|]; [|discriminate].
  destruct (alphaVantageBars _ _ _ _) as [bars|]; [|discriminate].
  intro H. injection H as <- _. simpl. apply sortBars_sorted.
Qed.

Example getHistoricalDataAlphaVantage_newest_first :
  exists series,
    getHistoricalDataAlphaVantage Scenario.alphaVantageUp Scenario.parseDate
      "AAPL" "1d" "2024-01-01" "2024-01-02" [] =
      Some (Ok series, [mkCall OpHistorical AlphaVantage "AAPL"]) /\
    map (@timestamp (option Q)) (data series) = [1704067200000; 1704153600000].
Proof. eexists. split; vm_compute; reflexivity. Qed.

(** C3.  Finnhub answers a historical request with two candles, the one
    of 2024-01-02 before the one of 2024-01-01: the request succeeds and
    the series it returns has its bars in that order, which is not
    ascending. *)
Theorem getHistoricalData_finnhub_newest_first_not_ascending :
  exists series,
    getHistoricalData Scenario.allUp Scenario.parseDate 2 Scenario.finnhubService
      "AAPL" (Some "1d"%string) "2024-01-01" "2024-12-31" None [] =
      Some (Ok series, [mkCall OpHistorical Finnhub "AAPL"]) /\
    map (@timestamp (option Q)) (data series) = [1704153600000; 1704067200000] /\
    ~ StrictlyAscending (data series).
Proof.
  eexists. split; [vm_compute; reflexivity|]. split; [reflexivity|].
  unfold StrictlyAscending. simpl. intro H.
  apply StronglySorted_inv in H. destruct H as [_ H].
  inversion H; subst. lia.
Qed.

End HistoricalFacts.

(** ** More on the fallback router *)

Section RouterExtras.

Import Io Entities MarketDataService Router ServiceState.
Local Open Scope string_scope.

#[local] Arguments String.eqb : simpl never.

(** When the adapter call of the selected provider succeeds, its result
    is returned and no other call is sent, whatever the provider. *)
Theorem primary_success_single_call
  up parseDate (svc : Service) (req : Request) (provider : option string)
  (a : Response) (log1 : list Call) (fuel : nat) :
  adapterCall up parseDate req (defaultArg provider (defaultProvider svc)) [] =
    Some (Ok a, log1) ->
  serve up parseDate (S fuel) svc req provider [] =
  Some (Ok a, [callOf req (defaultArg provider (defaultProvider svc))]).
Proof.
  intro Hok. rewrite serve_step. cbv zeta.
  destruct (adapterCall_one_call up parseDate req
              (defaultArg provider (defaultProvider svc)) []) as [o H1].
  rewrite Hok in H1. injection H1 as _ Hlog. rewrite Hok, Hlog. reflexivity.
Qed.

Lemma primary_success_single_call_witness :
  let req := HistoricalRequest "AAPL" None "2024-01-01" "2024-01-02" in
  exists a,
    adapterCall Scenario.alphaVantageUp Scenario.parseDate req "alphavantage" [] =
      Some (Ok a, [callOf req "alphavantage"]) /\
    serve Scenario.alphaVantageUp Scenario.parseDate 1 Scenario.alphaVantageService
          req None [] =
      Some (Ok a, [callOf req "alphavantage"]).
Proof.
  eexists. split.
  - vm_compute. reflexivity.
  - apply (@primary_success_single_call
             Scenario.alphaVantageUp Scenario.parseDate Scenario.alphaVantageService
             (HistoricalRequest "AAPL" None "2024-01-01" "2024-01-02") None _
             [callOf (HistoricalRequest "AAPL" None "2024-01-01" "2024-01-02")
                     "alphavantage"] 0%nat).
    vm_compute. reflexivity.
Defined.

Lemma serve_call_bound
  up parseDate (svc : Service) (req : Request) (provider : option string) :
  exists outcome log,
    (forall fuel : nat,
        serve up parseDate (S (S fuel)) svc req provider [] = Some (outcome, log)) /\
    (1 <= length log <= 2)%nat.
Proof.
  set (p := defaultArg provider (defaultProvider svc)).
  destruct (adapterCall_one_call up parseDate req p []) as [o1 H1].
  simpl app in H1.
  destruct o1 as [a|e].
  { exists (Ok a), [callOf req p]. split; [|simpl; lia].
    intro fuel. rewrite serve_step. cbv zeta. fold p. rewrite H1. reflexivity. }
  destruct (fallbackOf svc req p) as [fb|] eqn:Hfb.
  2:{ exists (Err e), [callOf req p]. split; [|simpl; lia].
      intro fuel. rewrite serve_step. cbv zeta. fold p. rewrite H1, Hfb.
      reflexivity. }
  destruct (adapterCall_one_call up parseDate (resolved req) fb [callOf req p])
    as [o2 H2].
  simpl app in H2.
  exists o2, [callOf req p; callOf (resolved req) fb]. split; [|simpl; lia].
  intro fuel. rewrite serve_step. cbv zeta. fold p. rewrite H1, Hfb.
  rewrite serve_step. cbv zeta. simpl defaultArg. rewrite H2.
  destruct o2 as [a|e2]; [reflexivity|].
  rewrite fallbackOf_resolved, (fallbackOf_fallback _ _ _ Hfb). reflexivity.
Qed.

(** Every method returns with any fuel of at least 2, with the same
    outcome, after one upstream call or two: a request never sends a
    third call. *)
Theorem serve_one_or_two_calls
  up parseDate (svc : Service) (req : Request) (provider : option string) :
  exists outcome log,
    (forall fuel : nat,
        serve up parseDate (S (S fuel)) svc req provider [] = Some (outcome, log)) /\
    (1 <= length log <= 2)%nat.
Proof. apply serve_call_bound. Qed.

(** An options-chain request whose provider is [polygon], pinned or by
    default, is not retried when Polygon fails: its error is thrown after
    the one call. *)
Theorem options_polygon_failure_not_retried
  up (svc : Service) (symbol : string) (provider : option string)
  (e : Error) (fuel : nat) :
  defaultArg provider (defaultProvider svc) = "polygon" ->
  optionsOf up Polygon 0 = Err e ->
  getOptionsChain up (S fuel) svc symbol provider [] =
  Some (Err e, [mkCall OpOptions Polygon symbol]).
Proof.
  intros Hsel Herr. simpl. rewrite Hsel. unfold tryCatch.
  rewrite switchOptions_call. simpl. rewrite Herr.
  rewrite andb_false_r. reflexivity.
Qed.

Lemma options_polygon_failure_not_retried_witness :
  let svc := {| defaultProvider := "polygon" |} in
  let up := Scenario.alphaVantageUp in
  optionsOf up Polygon 0 = Err "timeout of 10000ms exceeded" /\
  getOptionsChain up 1 svc "AAPL" None [] =
  Some (Err "timeout of 10000ms exceeded", [mkCall OpOptions Polygon "AAPL"]).
Proof.
  split; [reflexivity|].
  apply (@options_polygon_failure_not_retried
           Scenario.alphaVantageUp {| defaultProvider := "polygon" |} "AAPL" None
           "timeout of 10000ms exceeded" 0%nat); reflexivity.
Defined.

Lemma adapterOf_unknown (req : Request) (provider : string) :
  ~ In provider validProviders -> adapterOf req provider = Finnhub.
Proof.
  intro Hnot. unfold adapterOf, validProviders in *. simpl in Hnot.
  assert (H1 : (provider =? "finnhub") = false)
    by (apply String.eqb_neq; intro; subst; tauto).
  assert (H2 : (provider =? "alphavantage") = false)
    by (apply String.eqb_neq; intro; subst; tauto).
  assert (H3 : (provider =? "polygon") = false)
    by (apply String.eqb_neq; intro; subst; tauto).
  rewrite H1, H2, H3. destruct (isOptions req); reflexivity.
Qed.

(** A provider name that is none of the three is served by Finnhub, and
    never retried: with a default provider that is one of the three, the
    request sends one call, to Finnhub, and returns its outcome, a result
    or an error. *)
Theorem unknown_provider_served_by_finnhub_once
  up parseDate (svc : Service) (req : Request) (provider : string) (fuel : nat) :
  In (defaultProvider svc) validProviders ->
  ~ In provider validProviders ->
  exists outcome,
    serve up parseDate (S fuel) svc req (Some provider) [] =
      Some (outcome, [mkCall (operationOf req) Finnhub (symbolOf req)]) /\
    adapterCall up parseDate req provider [] =
      Some (outcome, [mkCall (operationOf req) Finnhub (symbolOf req)]).
Proof.
  intros Hd Hp.
  destruct (adapterCall_one_call up parseDate req provider []) as [o H1].
  simpl app in H1. unfold callOf in H1. rewrite (adapterOf_unknown req Hp) in H1.
  exists o. split; [|exact H1].
  rewrite serve_step. cbv zeta. simpl defaultArg. rewrite H1.
  destruct o as [a|e]; [reflexivity|].
  assert (Hne : (provider =? defaultProvider svc) = false).
  { apply String.eqb_neq. intro Heq. apply Hp. rewrite Heq. exact Hd. }
  unfold fallbackOf. rewrite Hne. simpl. destruct (isOptions req); reflexivity.
Qed.

Lemma unknown_provider_served_by_finnhub_once_witness :
  let req := QuoteRequest "AAPL" in
  In (defaultProvider Scenario.alphaVantageService) validProviders /\
  ~ In "yahoo" validProviders /\
  exists outcome,
    serve Scenario.finnhubDown Scenario.parseDate 1 Scenario.alphaVantageService
          req (Some "yahoo") [] =
      Some (outcome, [mkCall OpQuote Finnhub "AAPL"]) /\
    adapterCall Scenario.finnhubDown Scenario.parseDate req "yahoo" [] =
      Some (outcome, [mkCall OpQuote Finnhub "AAPL"]).
Proof.
  assert (Hd : In (defaultProvider Scenario.alphaVantageService) validProviders)
    by (simpl; tauto).
  assert (Hp : ~ In "yahoo" validProviders)
    by (simpl; intros [H|[H|[H|[]]]]; discriminate).
  split; [exact Hd|]. split; [exact Hp|].
  exact (@unknown_provider_served_by_finnhub_once
           Scenario.finnhubDown Scenario.parseDate Scenario.alphaVantageService
           (QuoteRequest "AAPL") "yahoo" 0%nat Hd Hp).
Defined.

Lemma setDefaultProvider_keeps_valid (svc : Service) (provider : string) :
  In (defaultProvider svc) validProviders ->
  In (defaultProvider (snd (setDefaultProvider svc provider))) validProviders.
Proof.
  intro Hv. unfold setDefaultProvider.
  destruct (existsb (String.eqb provider) ["finnhub"; "alphavantage"; "polygon"])
    eqn:E; simpl; [|exact Hv].
  apply existsb_exists in E. destruct E as (x & Hin & Heq).
  apply String.eqb_eq in Heq. subst x. exact Hin.
Qed.

(** Whatever calls of [setDefaultProvider] a service has gone through
    since its construction, accepted or rejected, its default provider is
    one of the three providers. *)
Theorem default_provider_always_valid (providers : list string) :
  In (defaultProvider (setDefaultProviders construct providers)) validProviders.
Proof.
  unfold setDefaultProviders.
  assert (H : In (defaultProvider construct) validProviders) by (simpl; tauto).
  revert H. generalize construct.
  induction providers as [|p ps IH]; intros svc Hv; simpl.
  - exact Hv.
  - apply IH. apply setDefaultProvider_keeps_valid. exact Hv.
Qed.

Lemma last_nonempty_default {A : Type} (xs : list A) (x d1 d2 : A) :
  last (x :: xs) d1 = last (x :: xs) d2.
Proof.
  revert x. induction xs as [|y ys IH]; intro x; [reflexivity|].
  change (last (y :: ys) d1 = last (y :: ys) d2). apply IH.
Qed.

Lemma setDefaultProviders_last (providers : list string) :
  forall svc : Service,
    defaultProvider (setDefaultProviders svc providers) =
    last (filter (fun p => existsb (String.eqb p) validProviders) providers)
         (defaultProvider svc).
Proof.
  unfold setDefaultProviders.
  induction providers as [|p ps IH]; intro svc; cbn [fold_left filter];
    [reflexivity|].
  rewrite IH. unfold setDefaultProvider.
  change ["finnhub"; "alphavantage"; "polygon"] with validProviders.
  destruct (existsb (String.eqb p) validProviders); cbn [snd defaultProvider].
  - destruct (filter _ ps) as [|x xs]; [reflexivity|].
    change (last (x :: xs) p = last (x :: xs) (defaultProvider svc)).
    apply last_nonempty_default.
  - reflexivity.
Qed.

(** The default provider of a service is the last provider that
    [setDefaultProvider] accepted, and [finnhub] when it accepted none. *)
Theorem default_provider_is_last_accepted (providers : list string) :
  defaultProvider (setDefaultProviders construct providers) =
  last (filter (fun p => existsb (String.eqb p) validProviders) providers) "finnhub".
Proof. apply setDefaultProviders_last. Qed.

End RouterExtras.

(** ** More on the historical-data adapters *)

Section HistoricalExtras.

Import Io Entities MarketDataService Router.
Local Open Scope Z_scope.

#[local] Arguments String.eqb : simpl never.

Lemma getHistoricalDataFinnhub_upstream_order_witness :
  exists series,
    getHistoricalDataFinnhub Scenario.allUp "AAPL" "1d" [] =
      Some (Ok series, [mkCall OpHistorical Finnhub "AAPL"]) /\
    exists candles t,
      finnhubCandles Scenario.allUp (length (@nil Call)) = Ok candles /\
      candleT candles = Some t /\
      map (@timestamp (option Q)) (data series) = map (fun s => s * 1000) t.
Proof.
  eexists. split.
  - vm_compute. reflexivity.
  - apply (@getHistoricalDataFinnhub_upstream_order
             Scenario.allUp "AAPL" "1d" [] [mkCall OpHistorical Finnhub "AAPL"]).
    vm_compute. reflexivity.
Defined.

Lemma getHistoricalDataPolygon_upstream_order_witness :
  exists series,
    getHistoricalDataPolygon Cases.polygonUp "AAPL" "1d" [] =
      Some (Ok series, [mkCall OpHistorical Polygon "AAPL"]) /\
    exists results,
      polygonResults Cases.polygonUp (length (@nil Call)) = Ok (Some results) /\
      map (@timestamp (option Q)) (data series) = map aggT results.
Proof.
  eexists. split.
  - vm_compute. reflexivity.
  - apply (@getHistoricalDataPolygon_upstream_order
             Cases.polygonUp "AAPL" "1d" [] [mkCall OpHistorical Polygon "AAPL"]).
    vm_compute. reflexivity.
Defined.

Lemma getHistoricalDataAlphaVantage_ascending_witness :
  exists series,
    getHistoricalDataAlphaVantage Scenario.alphaVantageUp Scenario.parseDate
      "AAPL" "1d" "2024-01-01" "2024-01-03" [] =
      Some (Ok series, [mkCall OpHistorical AlphaVantage "AAPL"]) /\
    length (data series) = 3%nat /\
    Ascending (data series).
Proof.
  eexists. split; [vm_compute; reflexivity|]. split; [reflexivity|].
  apply (@getHistoricalDataAlphaVantage_ascending
           Scenario.alphaVantageUp Scenario.parseDate "AAPL" "1d"
           "2024-01-01" "2024-01-03" [] [mkCall OpHistorical AlphaVantage "AAPL"]).
  vm_compute. reflexivity.
Defined.

(** *** Loops that stop at the first throw *)

Lemma collect_ok_iff {A B : Type} (f : A -> Result B) (xs : list A) :
  (exists ys, collect f xs = Ok ys) <-> Forall (fun x => exists b, f x = Ok b) xs.
Proof.
  induction xs as [|x xs IH]; simpl.
  - split; [constructor | intros _; eexists; reflexivity].
  - unfold bindResult. split.
    + intros [ys H]. destruct (f x) as [b|] eqn:Eb; [|discriminate].
      destruct (collect f xs) as [bs|]; [|discriminate].
      constructor; [exists b; exact Eb|]. apply IH. exists bs. reflexivity.
    + intro H. inversion H as [|? ? [b Hb] Hrest]; subst.
      apply IH in Hrest. destruct Hrest as [bs Hbs].
      rewrite Hb, Hbs. eexists. reflexivity.
Qed.

Lemma collect_Forall2 {A B : Type} (f : A -> Result B) (xs : list A) :
  forall ys : list B,
    collect f xs = Ok ys -> Forall2 (fun x y => f x = Ok y) xs ys.
Proof.
  induction xs as [|x xs IH]; intros ys; simpl.
  - intro H. injection H as <-. constructor.
  - unfold bindResult. destruct (f x) as [b|] eqn:Eb; [|discriminate].
    destruct (collect f xs) as [bs|]; [|discriminate].
    intro H. injection H as <-. constructor; [exact Eb | apply IH; reflexivity].
Qed.

(** *** What the Alpha Vantage adapter keeps *)

Lemma dateGeb_leb_window (d f t : option Z) :
  dateGeb d f && dateLeb d t = true <->
  exists ms lo hi, d = Some ms /\ f = Some lo /\ t = Some hi /\ lo <= ms <= hi.
Proof.
  unfold dateGeb, dateLeb. split.
  - destruct d as [ms|], f as [lo|], t as [hi|]; simpl; try discriminate;
      rewrite ?andb_false_r; try discriminate.
    intro H. apply andb_true_iff in H. destruct H as [H1 H2].
    apply Z.leb_le in H1, H2. exists ms, lo, hi. repeat split; assumption.
  - intros (ms & lo & hi & -> & -> & -> & H1 & H2).
    apply andb_true_iff. split; apply Z.leb_le; assumption.
Qed.

Lemma alphaVantageBar_In parseDate (fromDate toDate : option Z)
  (date : string) (entry : option AlphaVantageEntry)
  (pushed : list (Bar (option Q))) (bar : Bar (option Q)) :
  alphaVantageBar parseDate fromDate toDate (date, entry) = Ok pushed ->
  (In bar pushed <->
   exists e ms lo hi,
     entry = Some e /\
     parseDate date = Some ms /\ fromDate = Some lo /\ toDate = Some hi /\
     lo <= ms <= hi /\
     bar = {| timestamp := ms; open := entryOpen e; high := entryHigh e;
              low := entryLow e; close := entryClose e;
              volume := entryVolume e |}).
Proof.
  unfold alphaVantageBar.
  destruct (dateGeb (parseDate date) fromDate && dateLeb (parseDate date) toDate)
    eqn:E.
  - apply dateGeb_leb_window in E. destruct E as (ms & lo & hi & Hd & Hf & Ht & Hw).
    rewrite Hd. destruct entry as [e|]; [|discriminate].
    intro H. injection H as <-. simpl. split.
    + intros [<-|[]]. exists e, ms, lo, hi. repeat split; try assumption; apply Hw.
    + intros (e' & ms' & lo' & hi' & He & Hd' & _ & _ & _ & ->).
      injection He as <-. injection Hd' as <-. left. reflexivity.
  - assert (Hout : pushed = [] -> (In bar pushed <-> False)) by (intros ->; tauto).
    intro H.
    assert (Hnil : pushed = [])
      by (destruct (parseDate date); injection H as <-; reflexivity).
    rewrite (Hout Hnil). split; [tauto|].
    intros (e & ms & lo & hi & _ & Hd & Hf & Ht & Hw & _).
    assert (Hin : dateGeb (parseDate date) fromDate &&
                  dateLeb (parseDate date) toDate = true).
    { apply dateGeb_leb_window. exists ms, lo, hi.
      repeat split; try assumption; apply Hw. }
    congruence.
Qed.

Lemma alphaVantageBar_ok_iff parseDate (fromDate toDate : option Z)
  (date : string) (entry : option AlphaVantageEntry) :
  (exists pushed, alphaVantageBar parseDate fromDate toDate (date, entry) = Ok pushed)
  <->
  (entry = None ->
   forall ms lo hi,
     parseDate date = Some ms -> fromDate = Some lo -> toDate = Some hi ->
     ~ lo <= ms <= hi).
Proof.
  unfold alphaVantageBar.
  destruct (dateGeb (parseDate date) fromDate && dateLeb (parseDate date) toDate)
    eqn:E.
  - apply dateGeb_leb_window in E. destruct E as (ms & lo & hi & Hd & Hf & Ht & Hw).
    rewrite Hd. destruct entry as [e|].
    + split; [discriminate | intros _; eexists; reflexivity].
    + split; [intros [pushed H]; discriminate|].
      intro H. exfalso. exact (H eq_refl ms lo hi eq_refl Hf Ht Hw).
  - split.
    + intros _ _ ms lo hi Hd Hf Ht Hw.
      assert (Hin : dateGeb (parseDate date) fromDate &&
                    dateLeb (parseDate date) toDate = true).
      { apply dateGeb_leb_window. exists ms, lo, hi.
        repeat split; try assumption; apply Hw. }
      congruence.
    + intros _. destruct (parseDate date); eexists; reflexivity.
Qed.

Lemma alphaVantageBars_In parseDate (fromDate toDate : option Z)
  (timeSeriesData : list (string * option AlphaVantageEntry)) :
  forall (bars : list (Bar (option Q))) (bar : Bar (option Q)),
    alphaVantageBars parseDate fromDate toDate timeSeriesData = Ok bars ->
    (In bar bars <->
     exists date entry ms lo hi,
       In (date, Some entry) timeSeriesData /\
       parseDate date = Some ms /\ fromDate = Some lo /\ toDate = Some hi /\
       lo <= ms <= hi /\
       bar = {| timestamp := ms; open := entryOpen entry; high := entryHigh entry;
                low := entryLow entry; close := entryClose entry;
                volume := entryVolume entry |}).
Proof.
  unfold alphaVantageBars.
  induction timeSeriesData as [|[date entry] rest IH]; intros bars bar.
  - simpl. intro H. injection H as <-. simpl. split; [tauto|].
    intros (? & ? & ? & ? & ? & [] & _).
  - cbn [collect]. unfold bindResult.
    destruct (alphaVantageBar parseDate fromDate toDate (date, entry))
      as [pushed|] eqn:Eone; [|intro H; discriminate H].
    unfold bindResult in IH.
    destruct (collect (alphaVantageBar parseDate fromDate toDate) rest)
      as [others|]; [|intro H; discriminate H].
    cbn [concat]. intro H. injection H as <-.
    rewrite in_app_iff, (IH (concat others) bar eq_refl),
      (alphaVantageBar_In _ _ _ _ _ bar Eone).
    split.
    + intros [(e & ms & lo & hi & -> & Hrest)
             |(d & e & ms & lo & hi & Hin & Hrest)].
      * exists date, e, ms, lo, hi. split; [left; reflexivity | exact Hrest].
      * exists d, e, ms, lo, hi. split; [right; exact Hin | exact Hrest].
    + intros (d & e & ms & lo & hi & [Heq|Hin] & Hrest).
      * injection Heq as -> ->. left. exists e, ms, lo, hi.
        split; [reflexivity | exact Hrest].
      * right. exists d, e, ms, lo, hi. split; [exact Hin | exact Hrest].
Qed.

Lemma alphaVantageBars_ok_iff parseDate (fromDate toDate : option Z)
  (timeSeriesData : list (string * option AlphaVantageEntry)) :
  (exists bars, alphaVantageBars parseDate fromDate toDate timeSeriesData = Ok bars)
  <->
  (forall date ms lo hi,
      In (date, None) timeSeriesData ->
      parseDate date = Some ms -> fromDate = Some lo -> toDate = Some hi ->
      ~ lo <= ms <= hi).
Proof.
  unfold alphaVantageBars.
  pose proof (collect_ok_iff (alphaVantageBar parseDate fromDate toDate)
                             timeSeriesData) as Hc.
  split.
  - intros [bars H] date ms lo hi Hin.
    assert (Hall : Forall (fun kv => exists pushed,
                               alphaVantageBar parseDate fromDate toDate kv =
                               Ok pushed) timeSeriesData).
    { apply Hc. unfold bindResult in H.
      destruct (collect _ timeSeriesData) as [pushed|]; [|discriminate].
      exists pushed. reflexivity. }
    rewrite Forall_forall in Hall. specialize (Hall _ Hin).
    exact (proj1 (alphaVantageBar_ok_iff parseDate fromDate toDate date None)
                 Hall eq_refl ms lo hi).
  - intro Hnull.
    assert (Hok : exists pushed,
               collect (alphaVantageBar parseDate fromDate toDate) timeSeriesData =
               Ok pushed).
    { apply Hc. apply Forall_forall. intros [date entry] Hin.
      apply (proj2 (alphaVantageBar_ok_iff parseDate fromDate toDate date entry)).
      intros -> ms lo hi. apply Hnull. exact Hin. }
    destruct Hok as [pushed Hp]. rewrite Hp. eexists. reflexivity.
Qed.

(** When Alpha Vantage answers, the adapter succeeds exactly when no
    entry of the time series whose date lies between [from] and [to] is
    [null]; the bars of the series it then returns are those of the
    entries whose date is valid and lies between [from] and [to], both
    included, and no other. *)
Theorem getHistoricalDataAlphaVantage_window up parseDate
  (symbol interval from to : string) (log : list Call)
  (response : AlphaVantageData) :
  alphaVantageData up (length log) = Ok response ->
  let timeSeriesData := defaultArg (response (alphaVantageDataKey interval)) [] in
  ((exists series,
       getHistoricalDataAlphaVantage up parseDate symbol interval from to log =
       Some (Ok series, (log ++ [mkCall OpHistorical AlphaVantage symbol])%list))
   <->
   (forall date ms lo hi,
       In (date, None) timeSeriesData ->
       parseDate date = Some ms ->
       parseDate from = Some lo -> parseDate to = Some hi ->
       ~ lo <= ms <= hi)) /\
  (forall series log',
      getHistoricalDataAlphaVantage up parseDate symbol interval from to log =
      Some (Ok series, log') ->
      forall bar : Bar (option Q),
        In bar (data series) <->
        exists date entry ms lo hi,
          In (date, Some entry) timeSeriesData /\
          parseDate date = Some ms /\
          parseDate from = Some lo /\ parseDate to = Some hi /\
          lo <= ms <= hi /\
          bar = {| timestamp := ms; open := entryOpen entry;
                   high := entryHigh entry; low := entryLow entry;
                   close := entryClose entry; volume := entryVolume entry |}).
Proof.
  intros Hresp timeSeriesData.
  unfold getHistoricalDataAlphaVantage, bind, httpGet, liftResult, ret.
  rewrite Hresp. fold timeSeriesData.
  pose proof (alphaVantageBars_ok_iff parseDate (parseDate from) (parseDate to)
                                      timeSeriesData) as Hok.
  destruct (alphaVantageBars parseDate (parseDate from) (parseDate to)
                             timeSeriesData) as [bars|e] eqn:Ebars.
  - split.
    + split.
      * intros _. apply Hok. exists bars. reflexivity.
      * intros _. eexists. reflexivity.
    + intros series log' H. injection H as <- _. simpl data. intro bar.
      rewrite <- (alphaVantageBars_In _ _ _ _ bar Ebars). split; intro H.
      * eapply Permutation_in; [apply Permutation_sym, sortBars_perm | exact H].
      * eapply Permutation_in; [apply sortBars_perm | exact H].
  - split.
    + split.
      * intros [series H]. discriminate.
      * intro Hnull. apply Hok in Hnull. destruct Hnull as [bars H]. discriminate.
    + intros series log' H. discriminate.
Qed.

Lemma getHistoricalDataAlphaVantage_window_witness :
  let response : AlphaVantageData :=
    fun key => if (key =? "Time Series (Daily)")%string
               then Some Scenario.dailySeries else None in
  alphaVantageData Scenario.alphaVantageUp (length (@nil Call)) = Ok response /\
  exists series,
    getHistoricalDataAlphaVantage Scenario.alphaVantageUp Scenario.parseDate
      "AAPL" "1d" "2024-01-01" "2024-01-02" [] =
      Some (Ok series, [mkCall OpHistorical AlphaVantage "AAPL"]) /\
    map (@timestamp (option Q)) (data series) = [1704067200000; 1704153600000].
Proof.
  intro response. split; [reflexivity|].
  destruct (@getHistoricalDataAlphaVantage_window
              Scenario.alphaVantageUp Scenario.parseDate "AAPL" "1d"
              "2024-01-01" "2024-01-02" [] response eq_refl) as [Hok _].
  destruct (proj2 Hok) as [series Hrun].
  - intros date ms lo hi Hin. exfalso. simpl in Hin.
    destruct Hin as [H|[H|[H|[]]]]; discriminate.
  - exists series. split; [exact Hrun|].
    vm_compute in Hrun. injection Hrun as <-. reflexivity.
Defined.

(** An entry that is [null] makes the adapter throw when its date is
    inside the window, and is skipped when it is outside. *)
Example getHistoricalDataAlphaVantage_null_entry :
  getHistoricalDataAlphaVantage Cases.nullEntryUp Scenario.parseDate
    "AAPL" "1d" "2024-01-01" "2024-01-02" [] =
    Some (Err "TypeError: Cannot read properties of null"%string,
          [mkCall OpHistorical AlphaVantage "AAPL"]) /\
  exists series,
    getHistoricalDataAlphaVantage Cases.nullEntryUp Scenario.parseDate
      "AAPL" "1d" "2024-01-01" "2024-01-01" [] =
      Some (Ok series, [mkCall OpHistorical AlphaVantage "AAPL"]) /\
    map (@timestamp (option Q)) (data series) = [1704067200000].
Proof.
  split; [vm_compute; reflexivity|].
  eexists. split; vm_compute; reflexivity.
Qed.

Lemma alphaVantageBars_no_window parseDate (fromDate toDate : option Z)
  (timeSeriesData : list (string * option AlphaVantageEntry)) :
  timeSeriesData = [] \/ fromDate = None \/ toDate = None ->
  alphaVantageBars parseDate fromDate toDate timeSeriesData = Ok [].
Proof.
  intro Hnone.
  assert (Hout : forall d, dateGeb d fromDate && dateLeb d toDate = false \/
                           timeSeriesData = []).
  { intro d. destruct Hnone as [Hn|[Hn|Hn]]; rewrite Hn;
      [right; reflexivity|left|left].
    - destruct d; reflexivity.
    - destruct d, fromDate; simpl; rewrite ?andb_false_r; reflexivity. }
  unfold alphaVantageBars.
  induction timeSeriesData as [|[date entry] rest IH]; [reflexivity|].
  destruct (Hout (parseDate date)) as [Hd|Hnil]; [|discriminate].
  simpl. rewrite Hd. simpl.
  assert (Hrest : bindResult (collect (alphaVantageBar parseDate fromDate toDate) rest)
                             (fun pushed => Ok (concat pushed)) = Ok []).
  { apply IH.
    - destruct Hnone as [Hn|[Hn|Hn]]; [discriminate | right; left; exact Hn
                                      | right; right; exact Hn].
    - intro d. destruct (Hout d) as [H|H]; [left; exact H | discriminate]. }
  unfold bindResult in Hrest.
  destruct (collect (alphaVantageBar parseDate fromDate toDate) rest) as [others|];
    [|discriminate].
  injection Hrest as Hrest. simpl. rewrite Hrest. reflexivity.
Qed.

Lemma alphavantage_empty_series
  up parseDate (svc : Service) (symbol : string) (interval : option string)
  (from to : string) (provider : option string) (response : AlphaVantageData)
  (fuel : nat) :
  defaultArg provider (defaultProvider svc) = "alphavantage"%string ->
  alphaVantageData up 0 = Ok response ->
  response (alphaVantageDataKey (defaultArg interval "1d"%string)) = None \/
  parseDate from = None \/ parseDate to = None ->
  getHistoricalData up parseDate (S fuel) svc symbol interval from to provider [] =
  Some (Ok {| seriesSymbol := symbol;
              seriesInterval := defaultArg interval "1d"%string;
              data := [];
              seriesSource := "alphavantage" |},
        [mkCall OpHistorical AlphaVantage symbol]).
Proof.
  intros Hsel Hresp Hnone.
  assert (Hbars : alphaVantageBars parseDate (parseDate from) (parseDate to)
                    (defaultArg (response (alphaVantageDataKey
                                             (defaultArg interval "1d"%string))) [])
                  = Ok []).
  { apply alphaVantageBars_no_window.
    destruct Hnone as [Hk|[Hk|Hk]]; [left; rewrite Hk; reflexivity
                                    | right; left; exact Hk
                                    | right; right; exact Hk]. }
  cbn [getHistoricalData]. rewrite Hsel. unfold tryCatch, switchHistorical.
  change ("alphavantage" =? "finnhub")%string with false.
  change ("alphavantage" =? "alphavantage")%string with true. cbv iota.
  unfold getHistoricalDataAlphaVantage, bind, httpGet, liftResult, ret.
  cbn [length]. rewrite Hresp, Hbars. reflexivity.
Qed.

(** An answer of Alpha Vantage that lacks the time series (a note about
    the rate limit, an error message), or a [from] or [to] that is not a
    date, is not a failure: the request succeeds with an empty series
    after its one call, and is not retried with another provider. *)
Theorem getHistoricalData_alphavantage_no_series_is_empty_success
  up parseDate (svc : Service) (symbol : string) (interval : option string)
  (from to : string) (provider : option string) (response : AlphaVantageData)
  (fuel : nat) :
  defaultArg provider (defaultProvider svc) = "alphavantage"%string ->
  alphaVantageData up 0 = Ok response ->
  response (alphaVantageDataKey (defaultArg interval "1d"%string)) = None \/
  parseDate from = None \/ parseDate to = None ->
  getHistoricalData up parseDate (S fuel) svc symbol interval from to provider [] =
  Some (Ok {| seriesSymbol := symbol;
              seriesInterval := defaultArg interval "1d"%string;
              data := [];
              seriesSource := "alphavantage" |},
        [mkCall OpHistorical AlphaVantage symbol]).
Proof. apply alphavantage_empty_series. Qed.

Lemma getHistoricalData_alphavantage_no_series_is_empty_success_witness :
  alphaVantageData Cases.polygonUp 0 = Ok (fun _ => None) /\
  getHistoricalData Cases.polygonUp Scenario.parseDate 1 Scenario.alphaVantageService
    "AAPL" None "2024-01-01" "2024-01-02" None [] =
  Some (Ok {| seriesSymbol := "AAPL"; seriesInterval := "1d"; data := [];
              seriesSource := "alphavantage" |},
        [mkCall OpHistorical AlphaVantage "AAPL"]).
Proof.
  split; [reflexivity|].
  apply (@getHistoricalData_alphavantage_no_series_is_empty_success
           Cases.polygonUp Scenario.parseDate Scenario.alphaVantageService
           "AAPL" None "2024-01-01" "2024-01-02" None (fun _ => None) 0%nat).
  - reflexivity.
  - reflexivity.
  - left. reflexivity.
Defined.

(** *** When the Finnhub adapter fails *)

Lemma toISOString_ok_iff (ms : Z) :
  (exists ts, toISOString ms = Ok ts) <-> Z.abs ms <= 8640000000000000.
Proof.
  unfold toISOString. destruct (Z.leb_spec (Z.abs ms) 8640000000000000).
  - split; [intros _; assumption | intros _; eexists; reflexivity].
  - split; [intros [ts Hts]; discriminate | lia].
Qed.

Lemma finnhubBar_ok_iff (candles : FinnhubCandles) (i : nat) (t : Z) :
  (exists bar, finnhubBar candles (i, t) = Ok bar) <->
  Z.abs (t * 1000) <= 8640000000000000 /\
  candleO candles <> None /\ candleH candles <> None /\
  candleL candles <> None /\ candleC candles <> None /\
  candleV candles <> None.
Proof.
  unfold finnhubBar, bindResult, arrayOf. split.
  - intros [bar H].
    destruct (toISOString (t * 1000)) as [ts|] eqn:Ets; [|discriminate].
    split; [apply toISOString_ok_iff; exists ts; exact Ets|].
    destruct (candleO candles); [|discriminate].
    destruct (candleH candles); [|discriminate].
    destruct (candleL candles); [|discriminate].
    destruct (candleC candles); [|discriminate].
    destruct (candleV candles); [|discriminate].
    repeat split; discriminate.
  - intros (Ht & Ho & Hh & Hl & Hc & Hv).
    apply toISOString_ok_iff in Ht. destruct Ht as [ts Hts]. rewrite Hts.
    destruct (candleO candles); [|congruence].
    destruct (candleH candles); [|congruence].
    destruct (candleL candles); [|congruence].
    destruct (candleC candles); [|congruence].
    destruct (candleV candles); [|congruence].
    eexists. reflexivity.
Qed.

Lemma Forall_indexed {A : Type} (P : A -> Prop) (xs : list A) :
  Forall (fun entry : nat * A => P (snd entry)) (indexed xs) <-> Forall P xs.
Proof.
  rewrite <- (map_snd_indexed xs) at 2. rewrite Forall_map. reflexivity.
Qed.

(** The Finnhub adapter succeeds exactly when the call is answered, the
    answer has the array [t], and either [t] is empty or the five other
    arrays are there and every element of [t] is the time of a valid
    date.  An answer without [t] (Finnhub's [no_data]) is a failure; an
    array shorter than [t] is not. *)
Theorem getHistoricalDataFinnhub_succeeds_iff up (symbol interval : string)
  (log : list Call) :
  (exists series log',
      getHistoricalDataFinnhub up symbol interval log = Some (Ok series, log')) <->
  exists candles t,
    finnhubCandles up (length log) = Ok candles /\
    candleT candles = Some t /\
    (t = [] \/
     (Forall (fun s => Z.abs (s * 1000) <= 8640000000000000) t /\
      candleO candles <> None /\ candleH candles <> None /\
      candleL candles <> None /\ candleC candles <> None /\
      candleV candles <> None)).
Proof.
  unfold getHistoricalDataFinnhub, bind, httpGet, liftResult, ret.
  destruct (finnhubCandles up (length log)) as [candles|e].
  2:{ split; [intros (? & ? & H); discriminate | intros (? & ? & H & _); discriminate]. }
  destruct (candleT candles) as [t|] eqn:Et; simpl.
  2:{ split; [intros (? & ? & H); discriminate
             | intros (c & t & H & Ht & _); injection H as <-; congruence]. }
  pose proof (collect_ok_iff (finnhubBar candles) (indexed t)) as Hc.
  split.
  - intros (series & log' & H). exists candles, t.
    split; [reflexivity|]. split; [exact Et|].
    destruct (collect (finnhubBar candles) (indexed t)) as [bars|] eqn:Ec;
      [|discriminate].
    assert (Hall : Forall (fun x => exists b, finnhubBar candles x = Ok b) (indexed t))
      by (apply Hc; exists bars; reflexivity).
    destruct t as [|s ss]; [left; reflexivity|right].
    split.
    + apply Forall_indexed with (P := fun s => Z.abs (s * 1000) <= 8640000000000000).
      eapply Forall_impl; [|exact Hall].
      intros [i s'] Hb. apply finnhubBar_ok_iff in Hb. apply Hb.
    + unfold indexed in Hall. simpl in Hall. inversion Hall as [|? ? Hb _]; subst.
      apply finnhubBar_ok_iff in Hb. apply Hb.
  - intros (c & t' & Hcd & Ht & Hcases). injection Hcd as <-.
    rewrite Et in Ht. injection Ht as <-.
    assert (Hok : exists bars, collect (finnhubBar candles) (indexed t) = Ok bars).
    { apply Hc. destruct Hcases as [->|(Hrange & Harrays)]; [constructor|].
      apply Forall_indexed with (P := fun s => Z.abs (s * 1000) <= 8640000000000000)
        in Hrange.
      eapply Forall_impl; [|exact Hrange].
      intros [i s] Hs. apply finnhubBar_ok_iff. split; [exact Hs | exact Harrays]. }
    destruct Hok as [bars Hbars]. rewrite Hbars. eexists. eexists. reflexivity.
Qed.

Lemma getHistoricalDataFinnhub_succeeds_iff_witness :
  (exists series log',
      getHistoricalDataFinnhub Scenario.allUp "AAPL" "1d" [] =
      Some (Ok series, log')) /\
  ~ (exists series log',
        getHistoricalDataFinnhub Cases.polygonUp "AAPL" "1d" [] =
        Some (Ok series, log')).
Proof.
  split.
  - apply (proj2 (getHistoricalDataFinnhub_succeeds_iff
                    Scenario.allUp "AAPL" "1d" [])).
    exists Scenario.descendingCandles, [1704153600; 1704067200].
    split; [reflexivity|]. split; [reflexivity|]. right.
    split; [repeat constructor; vm_compute; discriminate|].
    repeat split; discriminate.
  - intro H.
    apply (proj1 (getHistoricalDataFinnhub_succeeds_iff
                    Cases.polygonUp "AAPL" "1d" [])) in H.
    destruct H as (candles & t & Hc & Ht & _).
    injection Hc as <-. discriminate.
Defined.

(** When Finnhub is the default provider and answers a historical request
    without the array [t] (its [no_data] answer), the request is retried
    once, with Alpha Vantage; when Alpha Vantage answers and no entry of
    its time series inside the window is [null], the request returns the
    series of Alpha Vantage, in ascending order, after the two calls. *)
Theorem getHistoricalData_finnhub_no_data_served_by_alphavantage
  up parseDate (svc : Service) (symbol : string) (interval : option string)
  (from to : string) (provider : option string) (candles : FinnhubCandles)
  (response : AlphaVantageData) (fuel : nat) :
  defaultProvider svc = "finnhub"%string ->
  defaultArg provider (defaultProvider svc) = defaultProvider svc ->
  finnhubCandles up 0 = Ok candles ->
  candleT candles = None ->
  alphaVantageData up 1 = Ok response ->
  (forall date ms lo hi,
      In (date, None)
         (defaultArg (response (alphaVantageDataKey
                                  (defaultArg interval "1d"%string))) []) ->
      parseDate date = Some ms ->
      parseDate from = Some lo -> parseDate to = Some hi ->
      ~ lo <= ms <= hi) ->
  exists series,
    getHistoricalData up parseDate (S (S fuel)) svc symbol interval from to
                      provider [] =
      Some (Ok series, [mkCall OpHistorical Finnhub symbol;
                        mkCall OpHistorical AlphaVantage symbol]) /\
    seriesSource series = "alphavantage"%string /\
    Ascending (data series).
Proof.
  intros Hd Hsel Hcandles Ht Hresp Hnull.
  apply alphaVantageBars_ok_iff in Hnull. destruct Hnull as [bars Hbars].
  eexists. split; [|split].
  - cbn [getHistoricalData]. rewrite Hsel, Hd. unfold tryCatch at 1.
    unfold switchHistorical at 1.
    change ("finnhub" =? "finnhub")%string with true. cbv iota.
    unfold getHistoricalDataFinnhub, bind, httpGet, liftResult.
    cbn [length]. rewrite Hcandles, Ht. cbn [arrayOf app defaultArg].
    unfold tryCatch, switchHistorical.
    change ("alphavantage" =? "finnhub")%string with false.
    change ("alphavantage" =? "alphavantage")%string with true. cbv iota.
    unfold getHistoricalDataAlphaVantage, bind, httpGet, liftResult, ret.
    cbn [length app]. rewrite Hresp, Hbars. reflexivity.
  - reflexivity.
  - unfold Ascending. cbn [data]. apply sortBars_sorted.
Qed.

Lemma getHistoricalData_finnhub_no_data_served_by_alphavantage_witness :
  let up :=
    {| quoteOf := quoteOf Cases.polygonUp;
       profileOf := profileOf Cases.polygonUp;
       optionsOf := optionsOf Cases.polygonUp;
       finnhubCandles := finnhubCandles Cases.polygonUp;
       alphaVantageData := alphaVantageData Scenario.alphaVantageUp;
       polygonResults := polygonResults Cases.polygonUp |} in
  exists series,
    getHistoricalData up Scenario.parseDate 2 Scenario.finnhubService
                      "AAPL" None "2024-01-01" "2024-01-02" None [] =
      Some (Ok series, [mkCall OpHistorical Finnhub "AAPL";
                        mkCall OpHistorical AlphaVantage "AAPL"]) /\
    seriesSource series = "alphavantage"%string /\
    Ascending (data series).
Proof.
  intro up.
  apply (@getHistoricalData_finnhub_no_data_served_by_alphavantage
           up Scenario.parseDate Scenario.finnhubService "AAPL" None
           "2024-01-01" "2024-01-02" None
           {| candleT := None; candleO := None; candleH := None;
              candleL := None; candleC := None; candleV := None |}
           (fun key => if (key =? "Time Series (Daily)")%string
                       then Some Scenario.dailySeries else None) 0%nat);
    try reflexivity.
  intros date ms lo hi Hin. exfalso. simpl in Hin.
  destruct Hin as [H|[H|[H|[]]]]; discriminate.
Defined.

End HistoricalExtras.

(** ** More on the indicator engine *)

Section IndicatorExtras.

Import Js Indicators.
Local Open Scope Q_scope.

(** *** The moving average stays within the range of its samples *)












(** *** One more sample *)

(** Appending one sample to a series that has an average updates the
    average by one step of the recurrence. *)
Theorem calculateEMA_append (prices : list Q) (period : nat) (price : Q) :
  (0 < period <= length prices)%nat ->
  calculateEMA (prices ++ [price]) period =
  option_map (fun ema => (price - ema) * (2 / (ofNat period + 1)) + ema)
             (calculateEMA prices period).
Proof.
  intros [_ Hlen]. unfold calculateEMA.
  rewrite length_app. simpl length.
  assert (E1 : (length prices + 1 <? period)%nat = false)
    by (apply Nat.ltb_ge; lia).
  assert (E2 : (length prices <? period)%nat = false)
    by (apply Nat.ltb_ge; lia).
  rewrite E1, E2. simpl option_map.
  rewrite firstn_app, skipn_app.
  replace (period - length prices)%nat with 0%nat by lia.
  simpl firstn at 2. simpl skipn at 2. rewrite app_nil_r.
  rewrite fold_left_app. reflexivity.
Qed.

Lemma calculateEMA_append_witness :
  calculateEMA (oneTo 12 ++ [13]) 12 =
  option_map (fun ema => (13 - ema) * (2 / (ofNat 12 + 1)) + ema)
             (calculateEMA (oneTo 12) 12).
Proof.
  apply (@calculateEMA_append (oneTo 12) 12 13). simpl. lia.
Defined.

(** *** A series that never rises *)








End IndicatorExtras.

(** ** The controller *)

Section ControllerFacts.

Import Io Entities MarketDataService Router Controller.
Local Open Scope string_scope.

#[local] Arguments String.eqb : simpl never.

Lemma handle_without_symbol
  up parseDate (fuel : nat) (svc : Service) (route : Route) (query : Query)
  (log : list Call) :
  missing (querySymbol query) = true ->
  handle up parseDate fuel svc route query log =
  Some ({| status := 400; body := MessageBody "Symbol parameter is required" |},
        log).
Proof.
  intro Hmiss.
  destruct route; unfold handle, Controller.getQuote, Controller.getCompanyProfile,
    Controller.getHistoricalData, Controller.getOptionsChain,
    Controller.calculateIndicators; rewrite Hmiss; reflexivity.
Qed.

(** A request without a symbol, or with an empty one, is answered 400 by
    every handler, before any upstream call. *)
Theorem missing_symbol_bad_request
  up parseDate (fuel : nat) (svc : Service) (route : Route) (query : Query)
  (log : list Call) :
  missing (querySymbol query) = true ->
  handle up parseDate fuel svc route query log =
  Some ({| status := 400; body := MessageBody "Symbol parameter is required" |},
        log).
Proof. apply handle_without_symbol. Qed.

Lemma missing_symbol_bad_request_witness :
  let query := {| querySymbol := Some ""; queryInterval := None;
                  queryFrom := Some "2024-01-01"; queryTo := Some "2024-01-02";
                  queryProvider := Some "polygon" |} in
  handle Scenario.allUp Scenario.parseDate 2 Scenario.finnhubService
         IndicatorsRoute query [] =
  Some ({| status := 400; body := MessageBody "Symbol parameter is required" |}, []).
Proof.
  apply (@missing_symbol_bad_request
           Scenario.allUp Scenario.parseDate 2 Scenario.finnhubService
           IndicatorsRoute
           {| querySymbol := Some ""; queryInterval := None;
              queryFrom := Some "2024-01-01"; queryTo := Some "2024-01-02";
              queryProvider := Some "polygon" |} []).
  reflexivity.
Defined.

Lemma handle_without_dates
  up parseDate (fuel : nat) (svc : Service) (route : Route) (query : Query)
  (log : list Call) :
  route = HistoricalRoute \/ route = IndicatorsRoute ->
  missing (querySymbol query) = false ->
  missing (queryFrom query) = true \/ missing (queryTo query) = true ->
  handle up parseDate fuel svc route query log =
  Some ({| status := 400;
           body := MessageBody "From and to date parameters are required" |},
        log).
Proof.
  intros Hroute Hsym Hdates.
  assert (Hor : missing (queryFrom query) || missing (queryTo query) = true)
    by (apply orb_true_iff; exact Hdates).
  destruct Hroute as [-> | ->];
    unfold handle, Controller.getHistoricalData, Controller.calculateIndicators;
    rewrite Hsym, Hor; reflexivity.
Qed.

(** A historical or indicators request with a symbol but without [from]
    or without [to] is answered 400, before any upstream call. *)
Theorem missing_dates_bad_request
  up parseDate (fuel : nat) (svc : Service) (route : Route) (query : Query)
  (log : list Call) :
  route = HistoricalRoute \/ route = IndicatorsRoute ->
  missing (querySymbol query) = false ->
  missing (queryFrom query) = true \/ missing (queryTo query) = true ->
  handle up parseDate fuel svc route query log =
  Some ({| status := 400;
           body := MessageBody "From and to date parameters are required" |},
        log).
Proof. apply handle_without_dates. Qed.

Lemma missing_dates_bad_request_witness :
  let query := {| querySymbol := Some "AAPL"; queryInterval := Some "1d";
                  queryFrom := Some "2024-01-01"; queryTo := None;
                  queryProvider := None |} in
  handle Scenario.allUp Scenario.parseDate 2 Scenario.finnhubService
         HistoricalRoute query [] =
  Some ({| status := 400;
           body := MessageBody "From and to date parameters are required" |}, []).
Proof.
  apply (@missing_dates_bad_request
           Scenario.allUp Scenario.parseDate 2 Scenario.finnhubService
           HistoricalRoute
           {| querySymbol := Some "AAPL"; queryInterval := Some "1d";
              queryFrom := Some "2024-01-01"; queryTo := None;
              queryProvider := None |} []).
  - left. reflexivity.
  - reflexivity.
  - right. reflexivity.
Defined.

(** What a handler answers once the service method has returned. *)
Ltac after_service Hserve :=
  unfold serve, mapIO, bind, ret in Hserve;
  match type of Hserve with
  | context [match ?call with _ => _ end] =>
      destruct call as [[[?a|?e] ?l]|]; try congruence;
      injection Hserve; intros; subst
  end.

(** On a query whose parameters are each absent or a string, every
    handler answers, with any fuel of at least 2 and the same response:
    its status is 200, 400 or 500, it has made at most two upstream
    calls, and it has made none exactly when the status is 400. *)
Theorem handler_always_answers
  up parseDate (svc : Service) (route : Route) (query : Query) :
  exists response log,
    (forall fuel : nat,
        handle up parseDate (S (S fuel)) svc route query [] = Some (response, log)) /\
    In (status response) [200; 400; 500]%nat /\
    (length log <= 2)%nat /\
    (status response = 400%nat <-> log = []).
Proof.
  destruct (missing (querySymbol query)) eqn:Hsym.
  { exists symbolRequired, []. split.
    - intro fuel. apply handle_without_symbol. exact Hsym.
    - simpl. repeat split; auto. }
  set (symbol := valueOf (querySymbol query)).
  set (interval := Some (orElse (queryInterval query) "1d")).
  pose (req := match route with
               | QuoteRoute => QuoteRequest symbol
               | ProfileRoute => ProfileRequest symbol
               | OptionsRoute => OptionsRequest symbol
               | _ => HistoricalRequest symbol interval
                        (valueOf (queryFrom query)) (valueOf (queryTo query))
               end).
  destruct (serve_call_bound up parseDate svc req (queryProvider query))
    as (outcome & log & Hserve & Hlen).
  assert (Hne : log <> []) by (intro Hnil; rewrite Hnil in Hlen; simpl in Hlen; lia).
  assert (Hdates :
            (route = HistoricalRoute \/ route = IndicatorsRoute) ->
            missing (queryFrom query) || missing (queryTo query) = true ->
            exists response log0,
              (forall fuel : nat,
                  handle up parseDate (S (S fuel)) svc route query [] =
                  Some (response, log0)) /\
              In (status response) [200; 400; 500]%nat /\
              (length log0 <= 2)%nat /\
              (status response = 400%nat <-> log0 = [])).
  { intros Hroute Hor. exists datesRequired, []. split.
    - intro fuel. apply handle_without_dates; try assumption.
      apply orb_true_iff. exact Hor.
    - simpl. repeat split; auto. }
  destruct route; subst req.
  - destruct outcome as [r|e].
    + destruct r as [quote| | |];
        try (exfalso; specialize (Hserve 0%nat); after_service Hserve; discriminate).
      exists {| status := 200; body := QuoteBody quote |}, log. split.
      * intro fuel. specialize (Hserve fuel).
        unfold handle, Controller.getQuote, respond. rewrite Hsym. fold symbol.
        after_service Hserve; reflexivity.
      * simpl. split; [tauto|]. split; [lia|]. split; [discriminate|tauto].
    + exists {| status := 500; body := FailureBody "Failed to fetch quote data" e |},
        log. split.
      * intro fuel. specialize (Hserve fuel).
        unfold handle, Controller.getQuote, respond. rewrite Hsym. fold symbol.
        after_service Hserve; reflexivity.
      * simpl. split; [tauto|]. split; [lia|]. split; [discriminate|tauto].
  - destruct outcome as [r|e].
    + destruct r as [|profile| |];
        try (exfalso; specialize (Hserve 0%nat); after_service Hserve; discriminate).
      exists {| status := 200; body := ProfileBody profile |}, log. split.
      * intro fuel. specialize (Hserve fuel).
        unfold handle, Controller.getCompanyProfile, respond. rewrite Hsym.
        fold symbol. after_service Hserve; reflexivity.
      * simpl. split; [tauto|]. split; [lia|]. split; [discriminate|tauto].
    + exists {| status := 500;
                body := FailureBody "Failed to fetch company profile" e |}, log.
      split.
      * intro fuel. specialize (Hserve fuel).
        unfold handle, Controller.getCompanyProfile, respond. rewrite Hsym.
        fold symbol. after_service Hserve; reflexivity.
      * simpl. split; [tauto|]. split; [lia|]. split; [discriminate|tauto].
  - destruct (missing (queryFrom query) || missing (queryTo query)) eqn:Hor;
      [apply Hdates; [left; reflexivity | reflexivity]|].
    destruct outcome as [r|e].
    + destruct r as [| |series|];
        try (exfalso; specialize (Hserve 0%nat); after_service Hserve; discriminate).
      exists {| status := 200; body := SeriesBody series |}, log. split.
      * intro fuel. specialize (Hserve fuel).
        unfold handle, Controller.getHistoricalData, respond. rewrite Hsym, Hor.
        fold symbol. fold interval. after_service Hserve; reflexivity.
      * simpl. split; [tauto|]. split; [lia|]. split; [discriminate|tauto].
    + exists {| status := 500;
                body := FailureBody "Failed to fetch historical data" e |}, log.
      split.
      * intro fuel. specialize (Hserve fuel).
        unfold handle, Controller.getHistoricalData, respond. rewrite Hsym, Hor.
        fold symbol. fold interval. after_service Hserve; reflexivity.
      * simpl. split; [tauto|]. split; [lia|]. split; [discriminate|tauto].
  - destruct outcome as [r|e].
    + destruct r as [| | |chain];
        try (exfalso; specialize (Hserve 0%nat); after_service Hserve; discriminate).
      exists {| status := 200; body := ChainBody chain |}, log. split.
      * intro fuel. specialize (Hserve fuel).
        unfold handle, Controller.getOptionsChain, respond. rewrite Hsym.
        fold symbol. after_service Hserve; reflexivity.
      * simpl. split; [tauto|]. split; [lia|]. split; [discriminate|tauto].
    + exists {| status := 500;
                body := FailureBody "Failed to fetch options chain" e |}, log.
      split.
      * intro fuel. specialize (Hserve fuel).
        unfold handle, Controller.getOptionsChain, respond. rewrite Hsym.
        fold symbol. after_service Hserve; reflexivity.
      * simpl. split; [tauto|]. split; [lia|]. split; [discriminate|tauto].
  - destruct (missing (queryFrom query) || missing (queryTo query)) eqn:Hor;
      [apply Hdates; [right; reflexivity | reflexivity]|].
    destruct outcome as [r|e].
    + destruct r as [| |series|];
        try (exfalso; specialize (Hserve 0%nat); after_service Hserve; discriminate).
      exists {| status := 200;
                body := IndicatorsBody symbol
                          (option_map
                             (fun bars => Indicators.calculateIndicators (Some bars))
                             (numericBars (data series)))
                          (seriesSource series) |}, log.
      split.
      * intro fuel. specialize (Hserve fuel).
        unfold handle, Controller.calculateIndicators, respond. rewrite Hsym, Hor.
        fold symbol. fold interval. after_service Hserve; reflexivity.
      * simpl. split; [tauto|]. split; [lia|]. split; [discriminate|tauto].
    + exists {| status := 500;
                body := FailureBody "Failed to calculate indicators" e |}, log.
      split.
      * intro fuel. specialize (Hserve fuel).
        unfold handle, Controller.calculateIndicators, respond. rewrite Hsym, Hor.
        fold symbol. fold interval. after_service Hserve; reflexivity.
      * simpl. split; [tauto|]. split; [lia|]. split; [discriminate|tauto].
Qed.

End ControllerFacts.

(** ** The controller on an empty series *)

Section IndicatorsRouteFacts.

Import Io Entities MarketDataService Router Controller.
Local Open Scope string_scope.

#[local] Arguments String.eqb : simpl never.

(** When the provider of an indicators request is [alphavantage] and the
    answer of Alpha Vantage lacks the time series, the handler answers
    200 with the empty object for indicators, after the one call. *)
Theorem calculateIndicators_route_no_series
  up parseDate (svc : Service) (query : Query) (response : AlphaVantageData)
  (fuel : nat) :
  missing (querySymbol query) = false ->
  missing (queryFrom query) = false ->
  missing (queryTo query) = false ->
  defaultArg (queryProvider query) (defaultProvider svc) = "alphavantage" ->
  alphaVantageData up 0 = Ok response ->
  response (alphaVantageDataKey (orElse (queryInterval query) "1d")) = None ->
  Controller.calculateIndicators up parseDate (S fuel) svc query [] =
  Some ({| status := 200;
           body := IndicatorsBody (valueOf (querySymbol query))
                                  (Some Indicators.EmptyObject) "alphavantage" |},
        [mkCall OpHistorical AlphaVantage (valueOf (querySymbol query))]).
Proof.
  intros Hsym Hfrom Hto Hsel Hresp Hkey.
  unfold Controller.calculateIndicators, respond.
  rewrite Hsym, Hfrom, Hto. cbn [orb].
  rewrite (@alphavantage_empty_series
             up parseDate svc (valueOf (querySymbol query))
             (Some (orElse (queryInterval query) "1d"))
             (valueOf (queryFrom query)) (valueOf (queryTo query))
             (queryProvider query) response fuel Hsel Hresp (or_introl Hkey)).
  reflexivity.
Qed.

Lemma calculateIndicators_route_no_series_witness :
  let query := {| querySymbol := Some "AAPL"; queryInterval := None;
                  queryFrom := Some "2024-01-01"; queryTo := Some "2024-01-02";
                  queryProvider := Some "alphavantage" |} in
  Controller.calculateIndicators Cases.polygonUp Scenario.parseDate 1
    Scenario.finnhubService query [] =
  Some ({| status := 200;
           body := IndicatorsBody "AAPL" (Some Indicators.EmptyObject)
                                  "alphavantage" |},
        [mkCall OpHistorical AlphaVantage "AAPL"]).
Proof.
  apply (@calculateIndicators_route_no_series
           Cases.polygonUp Scenario.parseDate Scenario.finnhubService
           {| querySymbol := Some "AAPL"; queryInterval := None;
              queryFrom := Some "2024-01-01"; queryTo := Some "2024-01-02";
              queryProvider := Some "alphavantage" |}
           (fun _ => None) 0%nat); reflexivity.
Defined.

End IndicatorsRouteFacts.

(** ** The translation of the payloads *)

Section PayloadFacts.

Import Io Entities MarketDataService Router Payloads.
Local Open Scope string_scope.

#[local] Arguments String.eqb : simpl never.

(** *** Quotes of Alpha Vantage *)

Example percentSign_is_percent : String percentSign "" = "%".
Proof. reflexivity. Qed.

(** When Alpha Vantage is the default provider and its answer has no
    ['Global Quote'], or one without the change in percent, the adapter
    throws, and the quote request is served by the one fallback call to
    Finnhub. *)
Theorem alphavantage_quote_without_payload_falls_back
  parseFloat up (svc : Service) (symbol : string) (provider : option string)
  (answer : nat -> Result (option GlobalQuote)) (fuel : nat) :
  defaultProvider svc = "alphavantage" ->
  defaultArg provider (defaultProvider svc) = defaultProvider svc ->
  answer 0%nat = Ok None \/
  (exists quote, answer 0%nat = Ok (Some quote) /\ gqChangePercent quote = None) ->
  getQuote (withAlphaVantageQuotes parseFloat up symbol answer)
           (S (S fuel)) svc symbol provider [] =
  Some (quoteOf up Finnhub 1,
        [mkCall OpQuote AlphaVantage symbol; mkCall OpQuote Finnhub symbol]).
Proof.
  intros Hd Hsel Hpayload.
  assert (Hfail : exists e,
             quoteOf (withAlphaVantageQuotes parseFloat up symbol answer)
                     AlphaVantage 0 = Err e).
  { simpl. destruct Hpayload as [H|(quote & H & Hp)]; rewrite H; simpl.
    - eexists. reflexivity.
    - rewrite Hp. eexists. reflexivity. }
  destruct Hfail as [e Hfail].
  cbn [getQuote]. rewrite Hsel, Hd. unfold tryCatch at 1.
  unfold switchQuote at 1.
  change ("alphavantage" =? "finnhub") with false.
  change ("alphavantage" =? "alphavantage") with true. cbv iota.
  unfold getQuoteAlphaVantage, httpGet. cbn [length]. rewrite Hfail.
  cbn [app defaultArg]. unfold tryCatch, switchQuote.
  change ("finnhub" =? "finnhub") with true. cbv iota.
  unfold getQuoteFinnhub, httpGet. cbn [length app].
  change (quoteOf (withAlphaVantageQuotes parseFloat up symbol answer) Finnhub 1)
    with (quoteOf up Finnhub 1).
  destruct (quoteOf up Finnhub 1); reflexivity.
Qed.

Lemma alphavantage_quote_without_payload_falls_back_witness :
  getQuote (withAlphaVantageQuotes Cases.parseFloat Scenario.allUp "AAPL"
                                   (fun _ => Ok None))
           2 Scenario.alphaVantageService "AAPL" None [] =
  Some (quoteOf Scenario.allUp Finnhub 1,
        [mkCall OpQuote AlphaVantage "AAPL"; mkCall OpQuote Finnhub "AAPL"]).
Proof.
  apply (@alphavantage_quote_without_payload_falls_back
           Cases.parseFloat Scenario.allUp Scenario.alphaVantageService "AAPL" None
           (fun _ => Ok None) 0%nat).
  - reflexivity.
  - reflexivity.
  - left. reflexivity.
Defined.

Lemma removeFirst_trailing (c : Ascii.ascii) (s : string) :
  hasChar c s = false -> removeFirst c (s ++ String c "") = s.
Proof.
  induction s as [|a rest IH]; simpl; intro H.
  - rewrite Ascii.eqb_refl. reflexivity.
  - apply orb_false_iff in H. destruct H as [Ha Hrest].
    rewrite Ha, (IH Hrest). reflexivity.
Qed.

(** An answer of Alpha Vantage with a ['Global Quote'] that has the change
    in percent is translated and returned after the one call, with the
    source [alphavantage], whether or not its other fields are there: a
    missing price is [NaN], not a failure.  The percent sign that ends the
    change in percent is removed before the number is read. *)
Theorem alphavantage_quote_with_percent_is_served
  parseFloat up (svc : Service) (symbol : string) (provider : option string)
  (answer : nat -> Result (option GlobalQuote)) (quote : GlobalQuote)
  (digits : string) (fuel : nat) :
  defaultArg provider (defaultProvider svc) = "alphavantage" ->
  answer 0%nat = Ok (Some quote) ->
  gqChangePercent quote = Some (digits ++ "%") ->
  hasChar percentSign digits = false ->
  exists q : Quote,
    getQuote (withAlphaVantageQuotes parseFloat up symbol answer)
             (S fuel) svc symbol provider [] =
      Some (Ok q, [mkCall OpQuote AlphaVantage symbol]) /\
    quoteSource q = "alphavantage" /\
    quoteSymbol q = symbol /\
    quotePercentChange q = parseFloat digits /\
    quotePrice q = parseFloatOf parseFloat (gqPrice quote).
Proof.
  intros Hsel Hans Hpercent Hdigits.
  eexists. split.
  - cbn [getQuote]. rewrite Hsel. unfold tryCatch, switchQuote.
    change ("alphavantage" =? "finnhub") with false.
    change ("alphavantage" =? "alphavantage") with true. cbv iota.
    unfold getQuoteAlphaVantage, httpGet. cbn [length app].
    cbn [quoteOf withAlphaVantageQuotes]. rewrite Hans.
    cbn [bindResult]. unfold alphaVantageQuoteOf. rewrite Hpercent.
    reflexivity.
  - cbn [quoteSource quoteSymbol quotePercentChange quotePrice].
    repeat split.
    change (digits ++ "%") with (digits ++ String percentSign "").
    rewrite (removeFirst_trailing percentSign digits Hdigits). reflexivity.
Qed.

Lemma alphavantage_quote_with_percent_is_served_witness :
  let quote := {| gqOpen := Some "149.00"; gqHigh := None; gqLow := None;
                  gqPrice := None; gqPreviousClose := Some "149.00";
                  gqChange := Some "1.00"; gqChangePercent := Some "0.67%" |} in
  exists q : Quote,
    getQuote (withAlphaVantageQuotes Cases.parseFloat Scenario.allUp "AAPL"
                                     (fun _ => Ok (Some quote)))
             1 Scenario.alphaVantageService "AAPL" None [] =
      Some (Ok q, [mkCall OpQuote AlphaVantage "AAPL"]) /\
    quoteSource q = "alphavantage" /\
    quoteSymbol q = "AAPL" /\
    quotePercentChange q = Cases.parseFloat "0.67" /\
    quotePrice q = parseFloatOf Cases.parseFloat (gqPrice quote).
Proof.
  intro quote.
  apply (@alphavantage_quote_with_percent_is_served
           Cases.parseFloat Scenario.allUp Scenario.alphaVantageService "AAPL" None
           (fun _ => Ok (Some quote)) quote "0.67" 0%nat); reflexivity.
Defined.

(** *** Option chains *)

Lemma sameValue_eq (a b : option string) : sameValue a b = true <-> a = b.
Proof.
  destruct a as [x|], b as [y|]; simpl; split; intro H;
    try discriminate; try reflexivity.
  - apply String.eqb_eq in H. congruence.
  - injection H as ->. apply String.eqb_refl.
Qed.

Lemma existsb_sameValue (x : option string) (seen : list (option string)) :
  existsb (sameValue x) seen = true <-> In x seen.
Proof.
  rewrite existsb_exists. split.
  - intros (y & Hin & Heq). apply sameValue_eq in Heq. subst y. exact Hin.
  - intro Hin. exists x. split; [exact Hin | apply sameValue_eq; reflexivity].
Qed.

Lemma uniqueFrom_spec (xs : list (option string)) :
  forall seen : list (option string),
    NoDup (uniqueFrom seen xs) /\
    forall x, In x (uniqueFrom seen xs) <-> In x xs /\ ~ In x seen.
Proof.
  induction xs as [|x rest IH]; intro seen; simpl.
  - split; [constructor|]. intro y. tauto.
  - destruct (existsb (sameValue x) seen) eqn:E.
    + apply existsb_sameValue in E.
      destruct (IH seen) as [Hnd Hin]. split; [exact Hnd|].
      intro y. rewrite Hin. split.
      * tauto.
      * intros [[Hy|Hy] Hns]; [subst y; contradiction | tauto].
    + assert (Hx : ~ In x seen).
      { intro Hin. apply existsb_sameValue in Hin. congruence. }
      destruct (IH (x :: seen)) as [Hnd Hin]. split.
      * constructor; [|exact Hnd]. intro Hmem. apply Hin in Hmem.
        destruct Hmem as [_ Hns]. apply Hns. left. reflexivity.
      * intro y. simpl. rewrite Hin. simpl. split.
        -- intros [Hy|[Hy Hns]]; [subst y; tauto | tauto].
        -- intros [[Hy|Hy] Hns]; [left; exact Hy|].
           destruct (sameValue x y) eqn:Exy.
           ++ apply sameValue_eq in Exy. left. exact Exy.
           ++ right. split; [exact Hy|]. intros [Heq|Hs]; [|contradiction].
              apply sameValue_eq in Heq. congruence.
Qed.

(** A list built as [[...new Set(xs)]] has the elements of [xs], each
    once. *)
Lemma unique_spec (xs : list (option string)) :
  NoDup (unique xs) /\ forall x, In x (unique xs) <-> In x xs.
Proof.
  destruct (uniqueFrom_spec xs []) as [Hnd Hin]. split; [exact Hnd|].
  intro x. unfold unique. rewrite Hin. simpl. tauto.
Qed.

(** In a chain that the Polygon adapter returns, the expiration dates are
    listed without repetition, and they are exactly the expirations of
    the contracts of the chain, of which there is one per upstream
    result. *)
Theorem polygonChainOf_expirations toLowerCase (sym : string)
  (payload : option (list PolygonContract)) (chain : Chain) :
  polygonChainOf toLowerCase sym payload = Ok chain ->
  NoDup (expirationDates chain) /\
  (forall date : option string,
      In date (expirationDates chain) <->
      exists contract, In contract (options chain) /\
                       optionExpiration contract = date) /\
  exists results,
    payload = Some results /\ length (options chain) = length results.
Proof.
  unfold polygonChainOf, bindResult, arrayOf.
  destruct payload as [results|]; [|discriminate].
  destruct (collect (polygonContract toLowerCase) results) as [contracts|] eqn:Ec;
    [|discriminate].
  intro H. injection H as <-. simpl.
  assert (Hmap : map optionExpiration contracts = map expiration_date results).
  { apply (collect_map (polygonContract toLowerCase) optionExpiration
                       expiration_date); [|exact Ec].
    intros item contract. unfold polygonContract.
    destruct (contract_type item); [|discriminate].
    intro H. injection H as <-. reflexivity. }
  destruct (unique_spec (map expiration_date results)) as [Hnd Hin].
  split; [exact Hnd|]. split.
  - intro date. rewrite Hin, <- Hmap, in_map_iff. split.
    + intros (c & Hc & Hmem). exists c. tauto.
    + intros (c & Hmem & Hc). exists c. tauto.
  - exists results. split; [reflexivity|].
    rewrite <- (length_map optionExpiration contracts), Hmap, length_map.
    reflexivity.
Qed.

Lemma polygonChainOf_expirations_witness :
  let contract type date :=
    {| contract_type := Some type; ticker := None; strike_price := Some (150 # 1);
       expiration_date := Some date |} in
  let payload :=
    Some [contract "call" "2024-06-21"; contract "put" "2024-06-21";
          contract "call" "2024-07-19"] in
  exists chain,
    polygonChainOf (fun s => s) "AAPL" payload = Ok chain /\
    expirationDates chain = [Some "2024-06-21"; Some "2024-07-19"] /\
    NoDup (expirationDates chain).
Proof.
  intros contract payload. eexists. split; [reflexivity|]. split; [reflexivity|].
  apply (@polygonChainOf_expirations (fun s => s) "AAPL" payload).
  reflexivity.
Defined.

(** In a chain that the Finnhub adapter returns, the expiration dates are
    those of the upstream expiries, in their order and with their
    repetitions; the expiration of every contract is one of them; and the
    chain has all the calls and puts of all the expiries. *)
Theorem finnhubChainOf_expirations (sym : string)
  (payload : option (list FinnhubExpiry)) (chain : Chain) :
  finnhubChainOf sym payload = Ok chain ->
  exists data,
    payload = Some data /\
    expirationDates chain = map expirationDate data /\
    Forall (fun contract => In (optionExpiration contract) (expirationDates chain))
           (options chain) /\
    length (options chain) = list_sum (map expirySize data).
Proof.
  unfold finnhubChainOf, bindResult, arrayOf.
  destruct payload as [data|]; [|discriminate].
  destruct (collect finnhubExpiryOptions data) as [perExpiry|] eqn:Ec;
    [|discriminate].
  intro H. injection H as <-. simpl.
  exists data. split; [reflexivity|]. split; [reflexivity|].
  apply collect_Forall2 in Ec.
  assert (Hgen : forall dates,
             (forall expiry, In expiry data -> In (expirationDate expiry) dates) ->
             Forall (fun contract => In (optionExpiration contract) dates)
                    (concat perExpiry) /\
             length (concat perExpiry) = list_sum (map expirySize data)).
  { induction Ec as [|expiry contracts data' rest' Hone Hrest IH]; intros dates Hd.
    - split; [constructor | reflexivity].
    - destruct (IH dates) as [IH1 IH2];
        [intros e He; apply Hd; right; exact He|].
      unfold finnhubExpiryOptions, bindResult, arrayOf in Hone.
      destruct (optionsCALL expiry) as [calls|] eqn:EC; [|discriminate].
      destruct (optionsPUT expiry) as [puts|] eqn:EP; [|discriminate].
      injection Hone as <-. simpl concat. split.
      + apply Forall_app. split; [|exact IH1].
        apply Forall_app. split; apply Forall_map; apply Forall_forall;
          intros c _; simpl; apply Hd; left; reflexivity.
      + cbn [map list_sum]. unfold expirySize at 1. rewrite EC, EP.
        cbn [defaultArg]. rewrite !length_app, !length_map, IH2. reflexivity. }
  apply Hgen. intros expiry He. apply in_map. exact He.
Qed.

Lemma finnhubChainOf_expirations_witness :
  let contract name :=
    {| contractName := Some name; strike := Some (150 # 1); lastPrice := None;
       change := None; volume := None; openInterest := None;
       impliedVolatility := None |} in
  let payload :=
    Some [ {| expirationDate := Some "2024-06-21";
              optionsCALL := Some [contract "C1"; contract "C2"];
              optionsPUT := Some [contract "P1"] |};
           {| expirationDate := Some "2024-06-21";
              optionsCALL := Some [];
              optionsPUT := Some [] |} ] in
  exists chain data,
    finnhubChainOf "AAPL" payload = Ok chain /\
    payload = Some data /\
    expirationDates chain = [Some "2024-06-21"; Some "2024-06-21"] /\
    length (options chain) = 3%nat.
Proof.
  intros contract payload.
  destruct (@finnhubChainOf_expirations "AAPL" payload _ eq_refl)
    as (data & Hp & Hd & _ & Hlen).
  eexists. exists data. split; [reflexivity|]. split; [exact Hp|].
  split; reflexivity.
Defined.

End PayloadFacts.

(** ** The catalog of providers and the service *)

Section CatalogFacts.

Import Io Entities MarketDataService Router ServiceState Catalog.
Local Open Scope string_scope.

(** The providers that [GET /providers] lists are those that
    [setDefaultProvider] accepts, and a request pinned to a listed
    provider is sent to the adapter of that very provider exactly when the
    catalog lists the feature of the operation for it: Alpha Vantage is
    not listed for option chains, and an options request pinned to it goes
    to another adapter. *)
Theorem catalog_matches_service (svc : Service) (req : Request) :
  (forall provider : string,
      In provider (map providerId providers) <->
      fst (setDefaultProvider svc provider) = Ok tt) /\
  (forall info : ProviderInfo,
      In info providers ->
      (In (featureOf (operationOf req)) (providerFeatures info) <->
       adapterName (adapterOf req (providerId info)) = providerId info)).
Proof.
  split.
  - intro provider. unfold setDefaultProvider. simpl map.
    destruct (existsb (String.eqb provider) ["finnhub"; "alphavantage"; "polygon"])
      eqn:E; simpl fst.
    + split; [reflexivity|]. intros _. apply existsb_exists in E.
      destruct E as (x & Hin & Heq). apply String.eqb_eq in Heq. subst x.
      exact Hin.
    + split; [|discriminate]. intro Hin. exfalso.
      assert (existsb (String.eqb provider) ["finnhub"; "alphavantage"; "polygon"]
              = true).
      { apply existsb_exists. exists provider. split; [exact Hin|].
        apply String.eqb_refl. }
      congruence.
  - intros info Hin. simpl in Hin.
    destruct Hin as [<-|[<-|[<-|[]]]]; destruct req; simpl; split; intro H;
      try reflexivity; try discriminate; try tauto;
      repeat (destruct H as [H|H]; try discriminate); try contradiction.
Qed.

Lemma catalog_matches_service_witness :
  let info := {| providerId := "alphavantage";
                 providerName := "Alpha Vantage";
                 providerDescription :=
                   "Free APIs for realtime and historical stock data";
                 providerWebsite := "https://www.alphavantage.co/";
                 providerFeatures :=
                   ["Stock quotes"; "Company profiles"; "Historical data"] |} in
  In info providers /\
  fst (setDefaultProvider Scenario.finnhubService "alphavantage") = Ok tt /\
  adapterName (adapterOf (OptionsRequest "AAPL") (providerId info)) <>
    providerId info /\
  ~ In "Options chain" (providerFeatures info).
Proof.
  intro info.
  assert (Hin : In info providers) by (right; left; reflexivity).
  destruct (catalog_matches_service Scenario.finnhubService (OptionsRequest "AAPL"))
    as [Hids Hfeatures].
  split; [exact Hin|]. split.
  - apply (proj1 (Hids "alphavantage")). right. left. reflexivity.
  - split; [discriminate|].
    intro Hf. apply (proj1 (Hfeatures info Hin)) in Hf. discriminate.
Defined.

End CatalogFacts.
